(** * qr-scanner-client: the diagnostic transport and the camera session controller

    A shallow embedding of [src/utils/remoteLog.ts] (module [RemoteLog]) and of
    the [QRScanner] component of [src/components/QRScanner.tsx] (module
    [QRScanner]), with the properties of the specification stated over them.

    Effectful code is written in ExtLib's monads: the transport runs in an
    exception monad over a state of emitted I/O events (so that what was
    already written before a [throw] stays written), the component in a state
    monad over its React state, its refs and the effects it has issued. *)

From Stdlib Require Import String Ascii List Bool Arith Lia.
From Stdlib Require Import DecimalString.
From ExtLib Require Import Structures.Monads Data.Monads.StateMonad Data.Monads.EitherMonad.
Import ListNotations MonadNotation.
Local Open Scope list_scope.
Local Open Scope monad_scope.
Local Open Scope string_scope.

(** ** Log levels (the [LogLevel] string enum) *)

Inductive LogLevel : Type := INFO | WARN | ERROR | DEBUG.

Definition LogLevel_toString (l : LogLevel) : string :=
  match l with
  | INFO => "INFO"
  | WARN => "WARN"
  | ERROR => "ERROR"
  | DEBUG => "DEBUG"
  end.

(** * The diagnostic transport: [remoteLog] and [sendWithFetch] *)

Module RemoteLog.

(** The [console] method a line is written with. *)
Inductive ConsoleMethod : Type := console_log | console_warn | console_error | console_debug.

(** The object handed to [JSON.stringify] before it becomes the request body. *)
Record LogPayload : Type := mkLogPayload {
  clientId : string;
  source : string;
  level : string;
  component : string;
  message : string;
  dataString : string
}.

(** What the transport does to the outside world, in order.  A request body
    is the [LogPayload] whose JSON text is sent. *)
Inductive IOEvent : Type :=
| Console (m : ConsoleMethod) (text : string)
| SendBeacon (url : string) (body : LogPayload)
| Fetch (url : string) (method : string) (contentType : string)
        (body : LogPayload) (keepalive : bool).

(** [navigator.sendBeacon]: absent, or present and, called, returning a
    boolean or throwing. *)
Inductive BeaconResult : Type := BeaconReturns (success : bool) | BeaconThrows (err : string).

(** The call [fetch(...)] itself: it throws synchronously (no [fetch] on the
    platform) or returns a promise, which may later reject. *)
Inductive FetchResult : Type := FetchThrows (err : string) | FetchPromise.

Section Platform.

(** The type of the optional [data] argument ([unknown] in the source). *)
Variable Data : Type.

(** [JSON.stringify(data)] rendered inside the template literal: [inr] the
    text, [inl] the exception it throws (a cyclic structure, a BigInt). *)
Variable JSON_stringify : Data -> string + string.

(** [new Date().toISOString()] at the call. *)
Variable timestamp : string.

(** The module constant [CLIENT_ID]. *)
Variable CLIENT_ID : string.

Variable navigator_sendBeacon : option BeaconResult.
Variable fetch_call : FetchResult.

(** Exceptions over a state of events: a [throw] keeps the events. *)
Definition IO : Type -> Type := eitherT string (state (list IOEvent)).

Definition emit (e : IOEvent) : IO unit :=
  lift (modify (fun tr => (tr ++ [e])%list) ;; ret tt).

Definition throw {A : Type} (err : string) : IO A := raise err.

(** Runs [c] on the events so far: the completion ([inl] = thrown) and the
    events after it. *)
Definition run {A : Type} (c : IO A) (tr : list IOEvent) : (string + A) * list IOEvent :=
  runState (unEitherT c) tr.

(** [sendWithFetch(logData)], up to the point where [fetch] has returned. *)
Definition sendWithFetch (logData : LogPayload) : IO unit :=
  emit (Fetch "/log" "POST" "application/json" logData true) ;;
  match fetch_call with
  | FetchThrows err => throw err
  | FetchPromise => ret tt
  end.

(** The [.catch] handler of [sendWithFetch], run when the promise rejects. *)
Definition sendWithFetch_rejected : IO unit :=
  emit (Console console_error "[Remote Log] Fetch fallback failed:").

(** The [try] block of lines 39-46: the serialized auxiliary data. *)
Definition serializeData (data : option Data) : IO string :=
  match data with
  | None => ret ""
  | Some d =>
      catch
        (match JSON_stringify d with
         | inr text => ret (" " ++ text)
         | inl err => throw err
         end)
        (fun _stringifyError =>
           emit (Console console_error "[Remote Log] Error stringifying log data:") ;;
           ret " [Unserializable data]")
  end.

Definition formatMessage (source : string) (level : LogLevel)
           (component message dataString : string) : string :=
  "[" ++ timestamp ++ " - " ++ CLIENT_ID ++ " - " ++ LogLevel_toString level ++ "]: ["
      ++ source ++ " - " ++ component ++ "] " ++ message ++ dataString.

Definition consoleMethodOf (level : LogLevel) : ConsoleMethod :=
  match level with
  | ERROR => console_error
  | WARN => console_warn
  | DEBUG => console_debug
  | INFO => console_log
  end.

Definition remoteLog (source : string) (level : LogLevel) (component message : string)
           (data : option Data) : IO unit :=
  dataString <- serializeData data ;;
  let formattedMessage := formatMessage source level component message dataString in
  emit (Console (consoleMethodOf level) formattedMessage) ;;
  catch
    (let logPayload :=
       mkLogPayload CLIENT_ID source (LogLevel_toString level) component message dataString in
     match navigator_sendBeacon with
     | Some r =>
         emit (SendBeacon "/log" logPayload) ;;
         match r with
         | BeaconThrows err => throw err
         | BeaconReturns success =>
             if negb success then
               emit (Console console_warn
                       "[Remote Log] sendBeacon returned false, attempting fetch fallback.") ;;
               sendWithFetch logPayload
             else ret tt
         end
     | None => sendWithFetch logPayload
     end)
    (fun _error =>
       emit (Console console_error "[Remote Log] Error preparing or sending log:")).

(** The delivery policy in the specification's words: the beacon first;
    the keepalive request when the beacon is missing or returns [false];
    a failure is written to the console and nothing else happens. *)
Definition fetch_fallback (p : LogPayload) : list IOEvent :=
  Fetch "/log" "POST" "application/json" p true ::
  match fetch_call with
  | FetchThrows _ => [Console console_error "[Remote Log] Error preparing or sending log:"]
  | FetchPromise => []
  end.

Definition delivery_policy (p : LogPayload) : list IOEvent :=
  match navigator_sendBeacon with
  | Some (BeaconReturns true) => [SendBeacon "/log" p]
  | Some (BeaconReturns false) =>
      SendBeacon "/log" p
      :: Console console_warn
           "[Remote Log] sendBeacon returned false, attempting fetch fallback."
      :: fetch_fallback p
  | Some (BeaconThrows _) =>
      [SendBeacon "/log" p;
       Console console_error "[Remote Log] Error preparing or sending log:"]
  | None => fetch_fallback p
  end.

Definition is_network (e : IOEvent) : bool :=
  match e with
  | Console _ _ => false
  | SendBeacon _ _ | Fetch _ _ _ _ _ => true
  end.

Definition is_beacon (e : IOEvent) : bool :=
  match e with SendBeacon _ _ => true | _ => false end.

Definition is_fetch (e : IOEvent) : bool :=
  match e with Fetch _ _ _ _ _ => true | _ => false end.

Definition is_keepalive_fetch (e : IOEvent) : bool :=
  match e with Fetch _ _ _ _ k => k | _ => true end.

(** The value of [dataString] after lines 38-46. *)
Definition dataStringOf (data : option Data) : string :=
  match data with
  | None => ""
  | Some d =>
      match JSON_stringify d with
      | inr text => " " ++ text
      | inl _ => " [Unserializable data]"
      end
  end.

(** What lines 38-46 write before the record itself: the stringify error. *)
Definition stringifyNotice (data : option Data) : list IOEvent :=
  match data with
  | None => []
  | Some d =>
      match JSON_stringify d with
      | inr _ => []
      | inl _ => [Console console_error "[Remote Log] Error stringifying log data:"]
      end
  end.

End Platform.

End RemoteLog.

(** * The camera session controller: the [QRScanner] component *)

(** The component is a function of React; its behaviour over time is what its
    handlers, its effects and the continuations of its [async] functions do
    to the state and the refs.  Each of them is embedded as a computation in
    a state monad over [World]; a computation stops where the source reaches
    an [await], and the code after the [await] is the computation of the
    event that settles the promise.  [ScannerService] and [CameraManager]
    belong to the library [qr-scanner-library]: the component's calls to them
    are recorded as effects, and what they answer comes in with the events.

    React drops the state updates of an unmounted component; the embedding
    keeps them.  The difference shows only after [Unmount], when the video
    element is detached and no start proceeds any more. *)

Module QRScanner.

(** A [ScannerService] instance, by the order of its construction. *)
Definition ServiceId : Type := nat.

(** The fields of [MediaDeviceInfo] the component reads. *)
Record MediaDeviceInfo : Type := mkDevice {
  deviceId : string;
  label : string
}.

(** What the component does to its collaborators, in order: a [remoteLog]
    call, the scanner-service operations, the camera calls. *)
Inductive Effect : Type :=
| Log (source : string) (level : LogLevel) (component message : string) (data : option string)
| NewScannerService (i : ServiceId) (deviceId : string)
| ServiceStart (i : ServiceId)
| ServiceStop (i : ServiceId)
| ListDevices
| GetUserMedia
| StopTracks.

(** The refs, the React state and the [cancelled] variable of the mount
    effect.  [videoRef] is [true] while [videoRef.current] is an element. *)
Record Controller : Type := mkController {
  videoRef : bool;
  scannerServiceRef : option ServiceId;
  hasAutoStartedRef : bool;
  devices : list MediaDeviceInfo;
  selectedDeviceId : string;
  isScanning : bool;
  isLoadingCameras : bool;
  scanResult : option string;
  error : option string;
  cancelled : bool
}.

(** The component together with the number of [ScannerService]
    constructions attempted so far and the effects issued so far. *)
Record World : Type := mkWorld {
  ctl : Controller;
  nextService : ServiceId;
  trace : list Effect
}.

(** The value of the local [deviceIdToUse], which the source compares with
    [undefined] and [null]. *)
Inductive JsValue : Type := js_undefined | js_null | js_string (s : string).

Definition isEmpty (s : string) : bool :=
  match s with EmptyString => true | String _ _ => false end.

(** [!v] *)
Definition js_not (v : JsValue) : bool :=
  match v with
  | js_undefined | js_null => true
  | js_string s => isEmpty s
  end.

(** [deviceIdOverride ?? selectedDeviceId], the override of type
    [string | undefined]. *)
Definition nullish_coalesce (override : option string) (selected : string) : JsValue :=
  match override with
  | Some s => js_string s
  | None => js_string selected
  end.

(** [a || b] on strings. *)
Definition js_or (a b : string) : string := if isEmpty a then b else a.

(** [`${n}`] for a length. *)
Definition showNat (n : nat) : string := NilEmpty.string_of_uint (Nat.to_uint n).

(** Which [return] a call of [handleStartScan] reached. *)
Inductive StartOutcome : Type :=
| NoVideoElement
| NoUsableDevice
| AlreadyScanning
| StartFailed
| StartPending (i : ServiceId).

Section Component.

(** [new ScannerService(options)] at the [i]-th construction: [Some] the
    message of the error it throws, [None] when it returns an instance. *)
Variable ScannerService_throws : ServiceId -> option string.

(** Whether [navigator.mediaDevices?.getUserMedia] is defined. *)
Variable getUserMedia_defined : bool.

Definition M : Type -> Type := state World.

Definition perform (e : Effect) : M unit :=
  modify (fun w => mkWorld (ctl w) (nextService w) (trace w ++ [e])%list) ;; ret tt.

Definition update (f : Controller -> Controller) : M unit :=
  modify (fun w => mkWorld (f (ctl w)) (nextService w) (trace w)) ;; ret tt.

Definition read : M Controller := w <- get ;; ret (ctl w).

(** The next construction index, counted. *)
Definition construction : M ServiceId :=
  w <- get ;;
  put (mkWorld (ctl w) (S (nextService w)) (trace w)) ;;
  ret (nextService w).

Definition remoteLog (source : string) (level : LogLevel) (component message : string)
           (data : option string) : M unit :=
  perform (Log source level component message data).

(** The state setters and the ref assignments. *)
Definition setDevices (v : list MediaDeviceInfo) : M unit :=
  update (fun c => mkController (videoRef c) (scannerServiceRef c) (hasAutoStartedRef c)
                     v (selectedDeviceId c) (isScanning c) (isLoadingCameras c)
                     (scanResult c) (error c) (cancelled c)).

Definition setSelectedDeviceId (v : string) : M unit :=
  update (fun c => mkController (videoRef c) (scannerServiceRef c) (hasAutoStartedRef c)
                     (devices c) v (isScanning c) (isLoadingCameras c)
                     (scanResult c) (error c) (cancelled c)).

Definition setIsScanning (v : bool) : M unit :=
  update (fun c => mkController (videoRef c) (scannerServiceRef c) (hasAutoStartedRef c)
                     (devices c) (selectedDeviceId c) v (isLoadingCameras c)
                     (scanResult c) (error c) (cancelled c)).

Definition setIsLoadingCameras (v : bool) : M unit :=
  update (fun c => mkController (videoRef c) (scannerServiceRef c) (hasAutoStartedRef c)
                     (devices c) (selectedDeviceId c) (isScanning c) v
                     (scanResult c) (error c) (cancelled c)).

Definition setScanResult (v : option string) : M unit :=
  update (fun c => mkController (videoRef c) (scannerServiceRef c) (hasAutoStartedRef c)
                     (devices c) (selectedDeviceId c) (isScanning c) (isLoadingCameras c)
                     v (error c) (cancelled c)).

Definition setError (v : option string) : M unit :=
  update (fun c => mkController (videoRef c) (scannerServiceRef c) (hasAutoStartedRef c)
                     (devices c) (selectedDeviceId c) (isScanning c) (isLoadingCameras c)
                     (scanResult c) v (cancelled c)).

Definition set_scannerServiceRef (v : option ServiceId) : M unit :=
  update (fun c => mkController (videoRef c) v (hasAutoStartedRef c)
                     (devices c) (selectedDeviceId c) (isScanning c) (isLoadingCameras c)
                     (scanResult c) (error c) (cancelled c)).

Definition set_hasAutoStartedRef (v : bool) : M unit :=
  update (fun c => mkController (videoRef c) (scannerServiceRef c) v
                     (devices c) (selectedDeviceId c) (isScanning c) (isLoadingCameras c)
                     (scanResult c) (error c) (cancelled c)).

Definition set_videoRef (v : bool) : M unit :=
  update (fun c => mkController v (scannerServiceRef c) (hasAutoStartedRef c)
                     (devices c) (selectedDeviceId c) (isScanning c) (isLoadingCameras c)
                     (scanResult c) (error c) (cancelled c)).

Definition set_cancelled (v : bool) : M unit :=
  update (fun c => mkController (videoRef c) (scannerServiceRef c) (hasAutoStartedRef c)
                     (devices c) (selectedDeviceId c) (isScanning c) (isLoadingCameras c)
                     (scanResult c) (error c) v).

(** [if (scannerServiceRef.current) { ....stop(); ... = null; }] *)
Definition stopCurrentService : M unit :=
  c <- read ;;
  match scannerServiceRef c with
  | Some i => perform (ServiceStop i) ;; set_scannerServiceRef None
  | None => ret tt
  end.

(** ** Callbacks handed to the scanner service *)

Definition handleScanSuccess (result : string) : M unit :=
  setScanResult (Some result) ;;
  setError None.

(** [err] is the message of the [Error]. *)
Definition handleError (err : string) : M unit :=
  remoteLog "Client" ERROR "QRScanner" "Scanner Error" (Some err) ;;
  setError (Some (js_or err "An unknown error occurred during scanning.")) ;;
  setScanResult None ;;
  setIsScanning false.

(** ** [handleStopScan] *)

Definition handleStopScan : M unit :=
  remoteLog "Client" INFO "QRScanner" "Stop scan button clicked." None ;;
  stopCurrentService ;;
  setIsScanning false.

(** ** [handleStartScan] *)

(** Lines 122-126: the device id the scan is started with. *)
Definition resolveDeviceId (deviceIdOverride : option string) : M JsValue :=
  c <- read ;;
  let deviceIdToUse := nullish_coalesce deviceIdOverride (selectedDeviceId c) in
  match js_not deviceIdToUse, devices c with
  | true, d0 :: _ =>
      remoteLog "Client" INFO "QRScanner"
        ("No specific device selected, using first available deviceId: '"
           ++ deviceId d0 ++ "'") None ;;
      ret (js_string (deviceId d0))
  | _, _ => ret deviceIdToUse
  end.

(** The [catch] block of lines 180-185. *)
Definition startFailed (err : string) : M unit :=
  remoteLog "Client" ERROR "QRScanner"
    "Error initializing or starting ScannerService" (Some err) ;;
  handleError err ;;
  setIsScanning false.

(** The call up to its first [await], at [scannerServiceRef.current.start()]. *)
Definition handleStartScan (deviceIdOverride : option string) : M StartOutcome :=
  c <- read ;;
  if negb (videoRef c) then
    setError (Some "Video element reference is not available.") ;;
    ret NoVideoElement
  else
    deviceIdToUse <- resolveDeviceId deviceIdOverride ;;
    match deviceIdToUse with
    | js_undefined | js_null =>
        setError (Some "No camera device available or selected.") ;;
        remoteLog "Client" WARN "QRScanner"
          "Start scan aborted: No usable device ID found." None ;;
        ret NoUsableDevice
    | js_string id =>
        if isScanning c then
          remoteLog "Client" WARN "QRScanner"
            "Start scan called while already scanning." None ;;
          ret AlreadyScanning
        else
          remoteLog "Client" INFO "QRScanner"
            ("Starting scan with deviceId: '" ++ id ++ "'") None ;;
          setError None ;;
          setScanResult None ;;
          setIsScanning true ;;
          stopCurrentService ;;
          remoteLog "Client" INFO "QRScanner" "Initializing ScannerService..." None ;;
          i <- construction ;;
          match ScannerService_throws i with
          | Some err => startFailed err ;; ret StartFailed
          | None =>
              perform (NewScannerService i id) ;;
              set_scannerServiceRef (Some i) ;;
              remoteLog "Client" INFO "QRScanner"
                "ScannerService initialized. Calling start()..." None ;;
              perform (ServiceStart i) ;;
              ret (StartPending i)
          end
    end.

(** The continuation when [start()] resolves, up to the second [await]. *)
Definition startResolved : M unit :=
  remoteLog "Client" INFO "QRScanner" "Scanner started successfully via start()." None ;;
  perform ListDevices.

(** The continuation when [start()] rejects. *)
Definition startRejected (err : string) : M unit := startFailed err.

(** [d.label && d.label !== ''] *)
Definition hasLabel (d : MediaDeviceInfo) : bool := negb (isEmpty (label d)).

(** The continuation when the refresh of lines 167-175 resolves. *)
Definition refreshResolved (videoDevices : list MediaDeviceInfo) : M unit :=
  let hasBetterLabels := existsb hasLabel videoDevices in
  if hasBetterLabels then setDevices videoDevices else ret tt.

(** The continuation when the refresh rejects. *)
Definition refreshRejected (refreshError : string) : M unit :=
  remoteLog "Client" WARN "QRScanner" "Failed to re-fetch devices after start"
    (Some refreshError).

(** ** [handleDeviceChange] and [handleToggleScan]

    A handler reads the state of the render it was created in.  React
    renders again between two events, so that state is the state the
    event finds; a value read after a setter of the same handler is
    still the old one, which is why [isScanning] is read first. *)

Definition handleDeviceChange (newId : string) : M unit :=
  c <- read ;;
  setSelectedDeviceId newId ;;
  if isScanning c then handleStopScan
  else handleStartScan (Some newId) ;; ret tt.

Definition handleToggleScan : M unit :=
  c <- read ;;
  if isScanning c then handleStopScan
  else handleStartScan None ;; ret tt.

(** ** The auto-start effect (lines 189-195); [true] when it called
    [handleStartScan]. *)

Definition autoStartEffect : M bool :=
  c <- read ;;
  match devices c with
  | d0 :: _ =>
      if negb (isLoadingCameras c) && negb (isScanning c) && negb (hasAutoStartedRef c) then
        let idToStart := js_or (selectedDeviceId c) (deviceId d0) in
        set_hasAutoStartedRef true ;;
        handleStartScan (Some idToStart) ;;
        ret true
      else ret false
  | [] => ret false
  end.

(** ** The mount effect (lines 26-83) *)

(** Lines 41-44, up to the [await] of [listDevices()]. *)
Definition listCameras : M unit :=
  remoteLog "Client" INFO "QRScanner" "Fetching camera devices..." None ;;
  setIsLoadingCameras true ;;
  perform ListDevices.

(** [primeAndList()] up to its first [await]. *)
Definition primeAndList : M unit :=
  remoteLog "Client" INFO "QRScanner" "Priming camera permission via getUserMedia..." None ;;
  if getUserMedia_defined then perform GetUserMedia else listCameras.

Definition primeResolved : M unit :=
  perform StopTracks ;;
  listCameras.

Definition primeRejected (permErr : string) : M unit :=
  remoteLog "Client" WARN "QRScanner" "Camera permission not granted or unavailable"
    (Some permErr) ;;
  listCameras.

(** The [finally] block of lines 63-68. *)
Definition finishedLoading : M unit :=
  c <- read ;;
  if negb (cancelled c) then
    setIsLoadingCameras false ;;
    remoteLog "Client" INFO "QRScanner" "Finished loading cameras." None
  else ret tt.

Definition listResolved (videoDevices : list MediaDeviceInfo) : M unit :=
  c <- read ;;
  if cancelled c then finishedLoading
  else
    remoteLog "Client" INFO "QRScanner"
      ("Devices found: " ++ showNat (length videoDevices)) None ;;
    setDevices videoDevices ;;
    match videoDevices with
    | d0 :: _ =>
        remoteLog "Client" INFO "QRScanner"
          ("Selecting first deviceId: '" ++ deviceId d0 ++ "'") None ;;
        setSelectedDeviceId (deviceId d0)
    | [] =>
        remoteLog "Client" INFO "QRScanner" "No video devices found." None ;;
        setSelectedDeviceId ""
    end ;;
    setError None ;;
    finishedLoading.

Definition listRejected (err : string) : M unit :=
  c <- read ;;
  if cancelled c then finishedLoading
  else
    remoteLog "Client" ERROR "QRScanner" "Error listing devices" (Some err) ;;
    setError (Some ("Failed to list cameras: " ++ err)) ;;
    setDevices [] ;;
    setSelectedDeviceId "" ;;
    finishedLoading.

(** The cleanup function of the mount effect. *)
Definition cleanup : M unit :=
  set_cancelled true ;;
  remoteLog "Client" INFO "QRScanner" "Cleanup on unmount." None ;;
  c <- read ;;
  match scannerServiceRef c with
  | Some i =>
      remoteLog "Client" INFO "QRScanner" "Stopping scanner during unmount cleanup." None ;;
      perform (ServiceStop i) ;;
      set_scannerServiceRef None
  | None => ret tt
  end.

(** ** The component as a reactive system

    What can happen to a mounted component: it is mounted, the user acts,
    a promise the component awaits settles, the scanner service calls
    back, the component is unmounted. *)
Inductive Event : Type :=
| Mount
| PrimeResolved
| PrimeRejected (permErr : string)
| ListResolved (videoDevices : list MediaDeviceInfo)
| ListRejected (err : string)
| DeviceChange (newId : string)
| ToggleScan
| StartScan (deviceIdOverride : option string)
| StopScan
| StartResolved
| StartRejected (err : string)
| RefreshResolved (videoDevices : list MediaDeviceInfo)
| RefreshRejected (refreshError : string)
| ScanSuccess (result : string)
| ScanError (err : string)
| Unmount.

Definition handle (e : Event) : M unit :=
  match e with
  | Mount => primeAndList
  | PrimeResolved => primeResolved
  | PrimeRejected permErr => primeRejected permErr
  | ListResolved videoDevices => listResolved videoDevices
  | ListRejected err => listRejected err
  | DeviceChange newId => handleDeviceChange newId
  | ToggleScan => handleToggleScan
  | StartScan deviceIdOverride => handleStartScan deviceIdOverride ;; ret tt
  | StopScan => handleStopScan
  | StartResolved => startResolved
  | StartRejected err => startRejected err
  | RefreshResolved videoDevices => refreshResolved videoDevices
  | RefreshRejected refreshError => refreshRejected refreshError
  | ScanSuccess result => handleScanSuccess result
  | ScanError err => handleError err
  | Unmount => cleanup ;; set_videoRef false
  end.

(** One event and the render after it: React runs the auto-start effect
    when one of its dependencies changed; with unchanged dependencies its
    test has the value it had before, so running it always is the same.
    An unmounted component runs no effect.  The result tells whether the
    effect called [handleStartScan]. *)
Definition step (e : Event) : M bool :=
  handle e ;;
  c <- read ;;
  if cancelled c then ret false else autoStartEffect.

Fixpoint run (evs : list Event) (w : World) : World :=
  match evs with
  | [] => w
  | e :: evs' => run evs' (execState (step e) w)
  end.

(** The number of automatic starts along [evs]. *)
Fixpoint autoStarts (evs : list Event) (w : World) : nat :=
  match evs with
  | [] => 0
  | e :: evs' =>
      (if evalState (step e) w then 1 else 0) + autoStarts evs' (execState (step e) w)
  end.

(** The component before its first effect. *)
Definition initialController : Controller :=
  mkController true None false [] "" false true None None false.

Definition initial : World := mkWorld initialController 0 [].

(** ** What the component renders (lines 226-250)

    The [disabled] attribute of the camera select (line 230) and of the
    toggle button (line 245), and the options of the select (lines
    235-241). *)
Definition selectDisabled (c : Controller) : bool :=
  isScanning c || isLoadingCameras c || Nat.eqb (length (devices c)) 0.

Definition toggleDisabled (c : Controller) : bool :=
  isLoadingCameras c || (Nat.eqb (length (devices c)) 0 && negb (isScanning c)).

Definition cameraOptions (c : Controller) : list string :=
  ((if isLoadingCameras c then ["Loading cameras..."] else [])
     ++ (if negb (isLoadingCameras c) && Nat.eqb (length (devices c)) 0
         then ["No cameras found"] else [])
     ++ map (fun device => js_or (label device) "Camera") (devices c))%list.

(** The events the rendered component can receive in the state [c].  A
    disabled control delivers no event.  [handleStartScan] and
    [handleStopScan] have no caller but the two handlers and the auto-start
    effect, and the toggle calls [handleStopScan] while scanning.  The
    promises of the mount effect settle while [isLoadingCameras] is set,
    which it is from the first render until the device list has arrived or
    failed (lines 20, 43 and 65).  The promises of a start, the callbacks of
    the scanner service and the unmount are not restricted. *)
Definition enabled (c : Controller) (e : Event) : bool :=
  match e with
  | DeviceChange _ => negb (selectDisabled c)
  | ToggleScan => negb (toggleDisabled c)
  | StartScan _ => false
  | StopScan => negb (toggleDisabled c) && isScanning c
  | Mount | PrimeResolved | PrimeRejected _ | ListResolved _ | ListRejected _ =>
      isLoadingCameras c
  | StartResolved | StartRejected _ | RefreshResolved _ | RefreshRejected _
  | ScanSuccess _ | ScanError _ | Unmount => true
  end.

(** The run of the rendered component: an event it cannot receive does not
    happen. *)
Fixpoint runRendered (evs : list Event) (w : World) : World :=
  match evs with
  | [] => w
  | e :: evs' =>
      runRendered evs' (if enabled (ctl w) e then execState (step e) w else w)
  end.

End Component.

(** ** Sessions

    A scanner service holds the camera from its [start()] to its [stop()]:
    the sessions open after a sequence of effects. *)
Definition sessionEffect (open : list ServiceId) (e : Effect) : list ServiceId :=
  match e with
  | ServiceStart i => i :: open
  | ServiceStop i => filter (fun j => negb (Nat.eqb j i)) open
  | _ => open
  end.

Definition openSessions (tr : list Effect) : list ServiceId :=
  fold_left sessionEffect tr [].

Definition isLog (e : Effect) : bool :=
  match e with Log _ _ _ _ _ => true | _ => false end.

(** The operations on a scanner service. *)
Definition isServiceEffect (e : Effect) : bool :=
  match e with
  | NewScannerService _ _ | ServiceStart _ | ServiceStop _ => true
  | _ => false
  end.

End QRScanner.

(** * The specification's readings, to compare the component with *)

Module Spec.

Import QRScanner.

Section Readings.

Variable ScannerService_throws : ServiceId -> option string.

(** [switchDevice(newId)] in the specification's words: [stop()] followed by
    [start(newId)] when a scan is active, plain [start(newId)] otherwise. *)
Definition switchDevice (newId : string) : M unit :=
  c <- read ;;
  if isScanning c then
    handleStopScan ;;
    handleStartScan ScannerService_throws (Some newId) ;;
    ret tt
  else
    handleStartScan ScannerService_throws (Some newId) ;;
    ret tt.

(** The race discard in the specification's words: when a stop intervenes
    between a start and the settling of what it awaits, the steps resumed
    afterwards (the continuation of [start()], the refresh of the device list)
    leave the component as the stop left it. *)
Definition discardsStaleStart : Prop :=
  forall (w : World) (deviceIdOverride : option string)
         (videoDevices : list MediaDeviceInfo),
    let stopped :=
      execState handleStopScan
        (execState (handleStartScan ScannerService_throws deviceIdOverride) w) in
    ctl (execState (refreshResolved videoDevices) (execState startResolved stopped))
    = ctl stopped.

End Readings.

(** The controller with another device list. *)
Definition withDevices (c : Controller) (v : list MediaDeviceInfo) : Controller :=
  mkController (videoRef c) (scannerServiceRef c) (hasAutoStartedRef c) v
    (selectedDeviceId c) (isScanning c) (isLoadingCameras c) (scanResult c) (error c)
    (cancelled c).

(** The effects of the service stopped by a start, if there was one. *)
Definition stopOf (ref : option ServiceId) : list Effect :=
  match ref with
  | Some j => [ServiceStop j]
  | None => []
  end.

(** The device id a call of [handleStartScan] resolves in the world [w]. *)
Definition deviceIdUsed (deviceIdOverride : option string) (w : World) : string :=
  match evalState (resolveDeviceId deviceIdOverride) w with
  | js_string id => id
  | js_undefined | js_null => ""
  end.

(** The component right after a start that proceeded, with the service [i]. *)
Definition startedWith (c : Controller) (i : ServiceId) : Controller :=
  mkController (videoRef c) (Some i) (hasAutoStartedRef c) (devices c)
    (selectedDeviceId c) true (isLoadingCameras c) None None (cancelled c).

(** The component after a start whose construction threw [err]. *)
Definition failedWith (c : Controller) (err : string) : Controller :=
  mkController (videoRef c) None (hasAutoStartedRef c) (devices c)
    (selectedDeviceId c) false (isLoadingCameras c) None
    (Some (js_or err "An unknown error occurred during scanning.")) (cancelled c).

(** At most one session is open after every prefix of the effects. *)
Definition atMostOneOpen (tr : list Effect) : Prop :=
  forall n : nat, length (openSessions (firstn n tr)) <= 1.

(** The sessions a scanner-service ref accounts for. *)
Definition sessionsOf (ref : option ServiceId) : list ServiceId :=
  match ref with
  | Some i => [i]
  | None => []
  end.

(** The effects that open or close no session. *)
Definition quiet (e : Effect) : bool :=
  match e with
  | ServiceStart _ | ServiceStop _ => false
  | _ => true
  end.

(** The effects so far never had two sessions open, and the session open now
    is the one of the scanner service [ref]. *)
Definition Tracked (ref : option ServiceId) (tr : list Effect) : Prop :=
  atMostOneOpen tr /\ openSessions tr = sessionsOf ref.

Definition Consistent (w : World) : Prop :=
  Tracked (scannerServiceRef (ctl w)) (trace w).

(** A mounted component that is scanning holds a scanner service. *)
Definition scanningHasService (w : World) : bool :=
  cancelled (ctl w) || negb (isScanning (ctl w))
  || match scannerServiceRef (ctl w) with Some _ => true | None => false end.

(** The events that may change the selected device. *)
Definition selects (e : Event) : bool :=
  match e with
  | ListResolved _ | ListRejected _ | DeviceChange _ => true
  | _ => false
  end.

(** The events that may change the device list. *)
Definition lists (e : Event) : bool :=
  match e with
  | ListResolved _ | ListRejected _ | RefreshResolved _ => true
  | _ => false
  end.

(** No scanner service was constructed so far, none is referenced and no
    scan is running. *)
Definition neverStarted (w : World) : bool :=
  Nat.eqb (nextService w) 0
  && negb (isScanning (ctl w))
  && match scannerServiceRef (ctl w) with Some _ => false | None => true end
  && negb (existsb isServiceEffect (trace w)).

(** While the device list is empty or still awaited, nothing was started. *)
Definition idleWhileEmpty (w : World) : bool :=
  (negb (Nat.eqb (length (devices (ctl w))) 0) && negb (isLoadingCameras (ctl w)))
  || neverStarted w.

(** [c] keeps the property [P] of the world. *)
Definition Keeps (P : World -> Prop) {A : Type} (c : M A) : Prop :=
  forall w : World, P w -> P (execState c w).

End Spec.


(** * The client identity: [getClientId] *)

Module ClientId.

(** The browser as [getClientId] sees it: the item [clientId] of the session
    storage ([None] is [null]) and the lines written with [console.error]. *)
Record Browser : Type := mkBrowser {
  item : option string;
  errors : list string
}.

(** What the platform answers during one call: the clock, the random suffix
    [Math.random().toString(36).substring(2, 8)], and the errors
    [sessionStorage.getItem] and [sessionStorage.setItem] throw, if any. *)
Record Platform : Type := mkPlatform {
  Date_now : string;
  randomSuffix : string;
  getItem_throws : option string;
  setItem_throws : option string
}.

Definition IO : Type -> Type := eitherT string (state Browser).

Definition throw {A : Type} (err : string) : IO A := raise err.

Definition run {A : Type} (c : IO A) (b : Browser) : (string + A) * Browser :=
  runState (unEitherT c) b.

Definition getItem (p : Platform) : IO (option string) :=
  match getItem_throws p with
  | Some err => throw err
  | None => lift (b <- get ;; ret (item b))
  end.

Definition setItem (p : Platform) (value : string) : IO unit :=
  match setItem_throws p with
  | Some err => throw err
  | None => lift (modify (fun b => mkBrowser (Some value) (errors b)) ;; ret tt)
  end.

Definition console_error (text : string) : IO unit :=
  lift (modify (fun b => mkBrowser (item b) (errors b ++ [text])%list) ;; ret tt).

Definition generate (p : Platform) : string :=
  "client_" ++ Date_now p ++ "_" ++ randomSuffix p.

Definition getClientId (p : Platform) : IO string :=
  stored <- getItem p ;;
  match stored with
  | Some (String a rest) => ret (String a rest)
  | Some EmptyString | None =>
      let clientId := generate p in
      catch (setItem p clientId)
            (fun _e =>
               console_error "Session storage unavailable for client ID persistence.") ;;
      ret clientId
  end.

End ClientId.

(** * The development server: the [/log] and [/upload-screenshot] middlewares

    [vite.config.ts].  A string is its sequence of code units; the methods of
    [String.prototype] the handlers use are written out on it. *)

Module JsString.

Definition isEmpty (s : string) : bool :=
  match s with EmptyString => true | String _ _ => false end.

(** [s.startsWith(p)] *)
Fixpoint startsWith (p s : string) : bool :=
  match p, s with
  | EmptyString, _ => true
  | String a p', String b s' => Ascii.eqb a b && startsWith p' s'
  | String _ _, EmptyString => false
  end.

(** [s.indexOf(c)] for a single character; [None] is [-1]. *)
Fixpoint indexOf (c : ascii) (s : string) : option nat :=
  match s with
  | EmptyString => None
  | String a s' =>
      if Ascii.eqb a c then Some 0
      else match indexOf c s' with
           | Some i => Some (S i)
           | None => None
           end
  end.

(** [s.substring(0, n)] *)
Fixpoint take (n : nat) (s : string) : string :=
  match n, s with
  | S n', String a s' => String a (take n' s')
  | _, _ => EmptyString
  end.

(** [s.substring(n)] *)
Fixpoint drop (n : nat) (s : string) : string :=
  match n, s with
  | S n', String _ s' => drop n' s'
  | _, _ => s
  end.

(** [s.replace(/[...]/g, r)]: every character the class [p] accepts becomes
    [r]. *)
Fixpoint replaceAll (p : ascii -> bool) (r : ascii) (s : string) : string :=
  match s with
  | EmptyString => EmptyString
  | String a s' => String (if p a then r else a) (replaceAll p r s')
  end.

Fixpoint forallChars (p : ascii -> bool) (s : string) : bool :=
  match s with
  | EmptyString => true
  | String a s' => p a && forallChars p s'
  end.

(** [s.split(c)] for a single character. *)
Fixpoint split (c : ascii) (s : string) : list string :=
  match s with
  | EmptyString => [EmptyString]
  | String a s' =>
      if Ascii.eqb a c then EmptyString :: split c s'
      else match split c s' with
           | piece :: pieces => String a piece :: pieces
           | [] => [String a EmptyString]
           end
  end.

(** What is left of [s] after the prefix [p], if [s] starts with it. *)
Fixpoint afterPrefix (p s : string) : option string :=
  match p, s with
  | EmptyString, _ => Some s
  | String a p', String b s' => if Ascii.eqb a b then afterPrefix p' s' else None
  | String _ _, EmptyString => None
  end.

(** What is left of [s] before the suffix [q], if [s] ends with it. *)
Definition beforeSuffix (q s : string) : option string :=
  let n := String.length s - String.length q in
  if Nat.leb (String.length q) (String.length s) && String.eqb (drop n s) q
  then Some (take n s) else None.

Definition inRange (lo hi : nat) (c : ascii) : bool :=
  Nat.leb lo (nat_of_ascii c) && Nat.leb (nat_of_ascii c) hi.

(** [[a-zA-Z0-9]] *)
Definition isAlnum (c : ascii) : bool :=
  inRange 97 122 c || inRange 65 90 c || inRange 48 57 c.

End JsString.

Module DevServer.

Import JsString.

#[local] Unset Elimination Schemes.

(** A value [JSON.parse] returns.  A number carries its rendering by
    [String(n)] and whether it is truthy (not zero); the fields of an object
    are its own properties. *)
Inductive Json : Type :=
| JNull
| JBool (b : bool)
| JNumber (text : string) (nonzero : bool)
| JString (s : string)
| JArray (items : list Json)
| JObject (fields : list (string * Json)).

#[local] Set Elimination Schemes.

(** JavaScript truthiness. *)
Definition truthy (v : Json) : bool :=
  match v with
  | JNull => false
  | JBool b => b
  | JNumber _ nonzero => nonzero
  | JString s => negb (isEmpty s)
  | JArray _ | JObject _ => true
  end.

Fixpoint lookup (name : string) (fields : list (string * Json)) : option Json :=
  match fields with
  | [] => None
  | (k, v) :: rest => if String.eqb k name then Some v else lookup name rest
  end.

(** The rendering of [v] inside a template literal and by [v.toString()];
    [None] when it throws a [TypeError].  A parsed object is rendered by
    [Object.prototype.toString] unless it has a property [toString] of its
    own: no parsed value is a function, so the call of [v.toString()] fails,
    and the template literal, which then tries [valueOf], finds no primitive.
    An array is rendered by [join], which renders its elements the same way
    and [null] as the empty string. *)
Fixpoint toString (v : Json) : option string :=
  match v with
  | JNull => Some "null"
  | JBool true => Some "true"
  | JBool false => Some "false"
  | JNumber text _ => Some text
  | JString s => Some s
  | JArray items =>
      option_map (String.concat ",")
        ((fix pieces (l : list Json) : option (list string) :=
            match l with
            | [] => Some []
            | item :: rest =>
                match match item with JNull => Some "" | _ => toString item end,
                      pieces rest with
                | Some piece, Some others => Some (piece :: others)
                | _, _ => None
                end
            end) items)
  | JObject fields =>
      match lookup "toString" fields with
      | Some _ => None
      | None => Some "[object Object]"
      end
  end.

(** [v.name] for a value that is not [null]; [None] is [undefined]. *)
Definition property (v : Json) (name : string) : option Json :=
  match v with
  | JObject fields => lookup name fields
  | _ => None
  end.

(** [`${x || d}`] and [(x || d).toString()] for a property [x]; [None] when
    the rendering throws. *)
Definition orDefault (x : option Json) (d : string) : option string :=
  match x with
  | Some v => if truthy v then toString v else Some d
  | None => Some d
  end.

(** The next step of a computation that stops at the first [TypeError]. *)
Definition andThen {A B : Type} (x : option A) (f : A -> option B) : option B :=
  match x with
  | Some a => f a
  | None => None
  end.

(** The body of a JSON response. *)
Inductive ResponseBody : Type :=
| StatusLogged
| StatusError (message : string)
| StatusSaved (file dir : string).

(** What is written to disk: the decoded image, given by its base64 text, or
    the metadata sidecar. *)
Inductive FileContent : Type :=
| ImageBytes (base64 : string)
| Sidecar (clientId source component : option Json) (note : Json)
          (mime : string) (sizeOf : string) (createdAt : string).

Inductive ServerEffect : Type :=
| ConsoleLog (text : string)
| ConsoleError (text : string)
| WriteHead (status : nat) (contentType : string)
| End_ (body : ResponseBody)
| Next
| MkdirRecursive (dir : string)
| WriteFile (path : string) (content : FileContent).

(** [[^a-zA-Z0-9_-]] *)
Definition isUnsafe (c : ascii) : bool :=
  negb (isAlnum c || Ascii.eqb c "_"%char || Ascii.eqb c "-"%char).

(** [[a-zA-Z0-9.+-]] *)
Definition isMimeChar (c : ascii) : bool :=
  isAlnum c || Ascii.eqb c "."%char || Ascii.eqb c "+"%char || Ascii.eqb c "-"%char.

(** [s.replace(/[^a-zA-Z0-9_-]/g, '_')] *)
Definition sanitize (s : string) : string := replaceAll isUnsafe "_"%char s.

(** [header.match(/^data:(image\/[a-zA-Z0-9.+-]+);base64$/)]: the first group
    of the match, if there is one.  The class excludes [;], so the group ends
    where [;base64] begins. *)
Definition mimeMatch (header : string) : option string :=
  match afterPrefix "data:" header with
  | Some rest =>
      match beforeSuffix ";base64" rest with
      | Some group =>
          match afterPrefix "image/" group with
          | Some subtype =>
              if negb (isEmpty subtype) && forallChars isMimeChar subtype
              then Some group else None
          | None => None
          end
      | None => None
      end
  | None => None
  end.

(** [mime === 'image/jpeg' ? 'jpg' : mime.split('/')[1] || 'png'] *)
Definition extensionOf (mime : string) : string :=
  if String.eqb mime "image/jpeg" then "jpg"
  else match nth_error (split "/"%char mime) 1 with
       | Some piece => if isEmpty piece then "png" else piece
       | None => "png"
       end.

(** The [note] of a request, when it is truthy. *)
Definition noteOf (request : Json) : option Json :=
  match property request "note" with
  | Some note => if truthy note then Some note else None
  | None => None
  end.

(** The fields the line of the [/log] middleware is made of. *)
Definition lineFields : list string :=
  ["clientId"; "level"; "source"; "component"; "message"; "dataString"].

(** What the [catch] of the [/log] middleware does. *)
Definition invalidJSON : list ServerEffect :=
  [ConsoleError "[Server Log] Error parsing log data:";
   WriteHead 400 "application/json";
   End_ (StatusError "Invalid JSON")].

Section Server.

(** [JSON.parse(text)]: [inl] the [SyntaxError] it throws. *)
Variable JSON_parse : string -> string + Json.

(** [new Date().toISOString()] at the request. *)
Variable now : string.

(** [path.resolve(process.cwd(), 'debug_uploads')] *)
Variable OUTPUT_DIR : string.

(** [fs.existsSync(OUTPUT_DIR)] *)
Variable outputDirExists : bool.

(** [fs.mkdirSync(OUTPUT_DIR, { recursive: true })]: [Some] the error it
    throws. *)
Variable mkdirSync_throws : option string.

(** [fs.writeFileSync(path, ...)]: [Some] the error it throws. *)
Variable writeFileSync_throws : string -> option string.

Definition IO : Type -> Type := eitherT string (state (list ServerEffect)).

Definition emit (e : ServerEffect) : IO unit :=
  lift (modify (fun tr => (tr ++ [e])%list) ;; ret tt).

Definition throw {A : Type} (err : string) : IO A := raise err.

Definition run {A : Type} (c : IO A) (tr : list ServerEffect)
  : (string + A) * list ServerEffect :=
  runState (unEitherT c) tr.

Definition parse (text : string) : IO Json :=
  match JSON_parse text with
  | inr v => ret v
  | inl err => throw err
  end.

(** [const { ... } = v]: destructuring [null] throws. *)
Definition destructure (v : Json) : IO Json :=
  match v with
  | JNull => throw "TypeError: Cannot destructure 'null'"
  | _ => ret v
  end.

Definition respond (status : nat) (body : ResponseBody) : IO unit :=
  emit (WriteHead status "application/json") ;;
  emit (End_ body).

(** The value of an expression that renders parsed values. *)
Definition rendered (text : option string) : IO string :=
  match text with
  | Some s => ret s
  | None => throw "TypeError: Cannot convert object to primitive value"
  end.

(** The line the server prints for a payload (line 24); [None] when one of
    the six renderings throws. *)
Definition finalMessage (logPayload : Json) : option string :=
  andThen (orDefault (property logPayload "clientId") "UNKNOWN") (fun clientId =>
  andThen (orDefault (property logPayload "level") "INFO") (fun level =>
  andThen (orDefault (property logPayload "source") "Unknown") (fun source =>
  andThen (orDefault (property logPayload "component") "Unknown") (fun component =>
  andThen (orDefault (property logPayload "message") "") (fun message =>
  andThen (orDefault (property logPayload "dataString") "") (fun dataString =>
  Some ("[" ++ now ++ " - " ++ clientId ++ " - " ++ level ++ "]: [" ++ source ++ " - "
            ++ component ++ "] " ++ message ++ dataString))))))).

(** The [/log] middleware once the body has arrived. *)
Definition handleLog (method body : string) : IO unit :=
  if String.eqb method "POST" then
    catch
      (parsed <- parse body ;;
       logPayload <- destructure parsed ;;
       line <- rendered (finalMessage logPayload) ;;
       emit (ConsoleLog line) ;;
       respond 200 StatusLogged)
      (fun _e =>
         emit (ConsoleError "[Server Log] Error parsing log data:") ;;
         respond 400 (StatusError "Invalid JSON"))
  else emit Next.

(** [path.join(OUTPUT_DIR, name)] on a POSIX host, for a name that is a single
    segment. *)
Definition pathJoin (name : string) : string := OUTPUT_DIR ++ "/" ++ name.

Definition writeFileSync (path : string) (content : FileContent) : IO unit :=
  match writeFileSync_throws path with
  | Some err => throw err
  | None => emit (WriteFile path content)
  end.

(** Lines 63-68: the header, the payload, the mime type and the extension. *)
Definition headerOf (dataURL : string) : string :=
  match indexOf ","%char dataURL with
  | Some commaIdx => take commaIdx dataURL
  | None => ""
  end.

Definition base64Of (dataURL : string) : string :=
  match indexOf ","%char dataURL with
  | Some commaIdx => drop (S commaIdx) dataURL
  | None => dataURL
  end.

Definition mimeOf (dataURL : string) : string :=
  match mimeMatch (headerOf dataURL) with
  | Some group => group
  | None => "image/png"
  end.

(** Lines 72-76. *)
Definition timestampOf : string := replaceAll (Ascii.eqb ":"%char) "-"%char now.

(** [baseName]; [None] when one of the three calls of [toString] throws. *)
Definition baseNameOf (request : Json) : option string :=
  andThen (orDefault (property request "clientId") "UNKNOWN") (fun clientId =>
  andThen (orDefault (property request "source") "Unknown") (fun source =>
  andThen (orDefault (property request "component") "Unknown") (fun component =>
  Some (timestampOf ++ "__" ++ sanitize clientId ++ "__" ++ sanitize source
          ++ "__" ++ sanitize component)))).

Definition filenameOf (baseName dataURL : string) : string :=
  baseName ++ "." ++ extensionOf (mimeOf dataURL).

(** Lines 56-89, for a request whose [dataURL] passed the check. *)
Definition saveScreenshot (request : Json) (dataURL : string) : IO unit :=
  (if negb outputDirExists then
     match mkdirSync_throws with
     | Some err => throw err
     | None => emit (MkdirRecursive OUTPUT_DIR)
     end
   else ret tt) ;;
  baseName <- rendered (baseNameOf request) ;;
  writeFileSync (pathJoin (filenameOf baseName dataURL)) (ImageBytes (base64Of dataURL)) ;;
  match property request "note" with
  | Some note =>
      if truthy note then
        writeFileSync (pathJoin (baseName ++ ".json"))
          (Sidecar (property request "clientId") (property request "source")
                   (property request "component") note (mimeOf dataURL)
                   (base64Of dataURL) timestampOf)
      else ret tt
  | None => ret tt
  end ;;
  respond 200 (StatusSaved (filenameOf baseName dataURL) OUTPUT_DIR).

(** What [saveScreenshot] does when nothing fails, for the base name
    [baseName]. *)
Definition savedEffects (request : Json) (baseName dataURL : string) : list ServerEffect :=
  ((if outputDirExists then [] else [MkdirRecursive OUTPUT_DIR])
     ++ [WriteFile (pathJoin (filenameOf baseName dataURL)) (ImageBytes (base64Of dataURL))]
     ++ match noteOf request with
        | Some note =>
            [WriteFile (pathJoin (baseName ++ ".json"))
               (Sidecar (property request "clientId") (property request "source")
                        (property request "component") note (mimeOf dataURL)
                        (base64Of dataURL) timestampOf)]
        | None => []
        end
     ++ [WriteHead 200 "application/json";
         End_ (StatusSaved (filenameOf baseName dataURL) OUTPUT_DIR)])%list.

(** The [/upload-screenshot] middleware once the body has arrived. *)
Definition handleUpload (method body : string) : IO unit :=
  if negb (String.eqb method "POST") then emit Next
  else
    catch
      (parsed <- (if isEmpty body then ret (JObject []) else parse body) ;;
       request <- destructure parsed ;;
       match property request "dataURL" with
       | Some (JString dataURL) =>
           if startsWith "data:image/" dataURL then saveScreenshot request dataURL
           else respond 400 (StatusError "dataURL (data:image/*;base64,...) required")
       | _ => respond 400 (StatusError "dataURL (data:image/*;base64,...) required")
       end)
      (fun _err =>
         emit (ConsoleError "[Upload Screenshot] Error:") ;;
         respond 400 (StatusError "Invalid request body")).

(** The value the upload handler destructures: [JSON.parse(body || '{}')]. *)
Definition bodyJson (body : string) : string + Json :=
  if isEmpty body then inr (JObject []) else JSON_parse body.

End Server.

(** The [dataURL] of a request that passes the check of line 50. *)
Definition acceptedDataURL (request : Json) : option string :=
  match property request "dataURL" with
  | Some (JString dataURL) =>
      if startsWith "data:image/" dataURL then Some dataURL else None
  | _ => None
  end.

(** [/] and [\], the characters that separate the segments of a path. *)
Definition isSeparator (c : ascii) : bool :=
  Ascii.eqb c "/"%char || Ascii.eqb c "\"%char.

Definition noSeparator (s : string) : bool :=
  forallChars (fun c => negb (isSeparator c)) s.

Definition isWriteHead (e : ServerEffect) : bool :=
  match e with WriteHead _ _ => true | _ => false end.

Definition isEnd (e : ServerEffect) : bool :=
  match e with End_ _ => true | _ => false end.

Definition isWriteFile (e : ServerEffect) : bool :=
  match e with WriteFile _ _ => true | MkdirRecursive _ => true | _ => false end.

(** The object [JSON.parse] gives back for the text [remoteLog] sends. *)
Definition payloadObject (p : RemoteLog.LogPayload) : Json :=
  JObject [("clientId", JString (RemoteLog.clientId p));
           ("source", JString (RemoteLog.source p));
           ("level", JString (RemoteLog.level p));
           ("component", JString (RemoteLog.component p));
           ("message", JString (RemoteLog.message p));
           ("dataString", JString (RemoteLog.dataString p))].

End DevServer.

(** * Concrete runs *)

Module Runs.

Import QRScanner.

(** Every construction succeeds and [getUserMedia] exists. *)
Definition noThrow : ServiceId -> option string := fun _ => None.

Definition cam1 : MediaDeviceInfo := mkDevice "cam1" "".
Definition cam1_labelled : MediaDeviceInfo := mkDevice "cam1" "Front camera".
Definition cam2 : MediaDeviceInfo := mkDevice "cam2" "".

(** The component after its mount effect found [cam1] and [cam2]: the
    auto-start effect has started a scan on [cam1]. *)
Definition scanning : World :=
  run noThrow true [Mount; PrimeResolved; ListResolved [cam1; cam2]] initial.

(** The same and [start()] has resolved. *)
Definition active : World := run noThrow true [StartResolved] scanning.

(** The active component after the user stopped the scan. *)
Definition idle : World := run noThrow true [StopScan] active.

(** On the idle component: a start, then a stop before [start()] resolves. *)
Definition staleStopped : World :=
  execState handleStopScan (execState (handleStartScan noThrow None) idle).

(** The same after [start()] has resolved and the refresh it asks for has
    found a labelled device. *)
Definition staleResumed : World :=
  execState (refreshResolved [cam1_labelled; cam2]) (execState startResolved staleStopped).

(** The component after its mount effect found no camera. *)
Definition noCamera : World :=
  run noThrow true [Mount; PrimeRejected "Requested device not found"; ListResolved []] initial.

(** The component while its mount effect waits for the device list. *)
Definition loading : World := run noThrow true [Mount; PrimeResolved] initial.

(** The scanning component after it was unmounted. *)
Definition unmounted : World := run noThrow true [Unmount] scanning.

(** A screenshot request as the debug button sends it, and a server that
    parses every body to it. *)
Definition shot : DevServer.Json :=
  DevServer.JObject
    [("clientId", DevServer.JString "client_1/../x");
     ("source", DevServer.JString "qr-scanner-client");
     ("component", DevServer.JString "DebugScreenshot");
     ("note", DevServer.JString "blurry");
     ("dataURL", DevServer.JString "data:image/jpeg;base64,/9j/4AAQ")].

Definition parseShot : string -> string + DevServer.Json := fun _ => inr shot.

Definition shotName : string :=
  "2024-01-01T10-20-30.000Z__client_1____x__qr-scanner-client__DebugScreenshot".

(** A value whose rendering throws: an object with a property [toString],
    as [JSON.parse] makes it from the text [{"toString":1}]; a log record and
    a screenshot request with it as the client id. *)
Definition unrenderable : DevServer.Json :=
  DevServer.JObject [("toString", DevServer.JNumber "1" true)].

Definition unrenderableRecord : DevServer.Json :=
  DevServer.JObject [("clientId", unrenderable); ("message", DevServer.JString "hello")].

Definition unrenderableShot : DevServer.Json :=
  DevServer.JObject
    [("clientId", DevServer.JArray [DevServer.JString "a"; unrenderable]);
     ("dataURL", DevServer.JString "data:image/png;base64,iVBORw0K")].

(** A disk that takes the image and refuses every other file. *)
Definition onlyImage : string -> option string :=
  fun path =>
    if String.eqb path ("/srv/debug_uploads/" ++ shotName ++ ".jpg") then None
    else Some "ENOSPC".

End Runs.

(** * Properties of the diagnostic transport *)

Section TransportProperties.

Import RemoteLog.

Variable Data : Type.
Variable JSON_stringify : Data -> string + string.
Variable timestamp CLIENT_ID : string.
Variable navigator_sendBeacon : option BeaconResult.
Variable fetch_call : FetchResult.

Local Abbreviation remoteLog :=
  (RemoteLog.remoteLog Data JSON_stringify timestamp CLIENT_ID navigator_sendBeacon fetch_call).
Local Abbreviation formatMessage := (RemoteLog.formatMessage timestamp CLIENT_ID).
Local Abbreviation dataStringOf := (RemoteLog.dataStringOf Data JSON_stringify).
Local Abbreviation stringifyNotice := (RemoteLog.stringifyNotice Data JSON_stringify).
Local Abbreviation delivery_policy := (RemoteLog.delivery_policy navigator_sendBeacon fetch_call).
Local Abbreviation fetch_fallback := (RemoteLog.fetch_fallback fetch_call).

(** The events of one call, whatever the platform does. *)
Lemma run_remoteLog (source : string) (level : LogLevel) (component message : string)
      (data : option Data) (tr : list IOEvent) :
  run (remoteLog source level component message data) tr
  = (inr tt,
     (tr ++ stringifyNotice data
         ++ [Console (consoleMethodOf level)
                     (formatMessage source level component message (dataStringOf data))]
         ++ delivery_policy
              (mkLogPayload CLIENT_ID source (LogLevel_toString level) component message
                            (dataStringOf data)))%list).
Proof.
  unfold run, RemoteLog.remoteLog, serializeData, RemoteLog.dataStringOf,
    RemoteLog.stringifyNotice, RemoteLog.delivery_policy, RemoteLog.fetch_fallback,
    sendWithFetch, throw, emit.
  destruct data as [d|]; [destruct (JSON_stringify d) as [err|text]|];
    (destruct navigator_sendBeacon as [[[|]|berr]|]; destruct fetch_call as [ferr|];
     cbn; repeat rewrite <- app_assoc; reflexivity).
Qed.

Lemma delivery_policy_counts (p : LogPayload) :
  length (filter is_beacon (delivery_policy p)) <= 1
  /\ length (filter is_fetch (delivery_policy p)) <= 1
  /\ forallb is_keepalive_fetch (delivery_policy p) = true.
Proof.
  unfold RemoteLog.delivery_policy, RemoteLog.fetch_fallback.
  destruct navigator_sendBeacon as [[[|]|berr]|]; destruct fetch_call as [ferr|];
    cbn; repeat split; lia.
Qed.

Lemma delivery_policy_order (p : LogPayload) :
  hd_error (delivery_policy p)
  = Some (match navigator_sendBeacon with
          | Some _ => SendBeacon "/log" p
          | None => Fetch "/log" "POST" "application/json" p true
          end)
  /\ existsb is_fetch (delivery_policy p)
     = match navigator_sendBeacon with
       | None | Some (BeaconReturns false) => true
       | Some (BeaconReturns true) | Some (BeaconThrows _) => false
       end.
Proof.
  unfold RemoteLog.delivery_policy, RemoteLog.fetch_fallback.
  destruct navigator_sendBeacon as [[[|]|berr]|]; destruct fetch_call as [ferr|];
    cbn; split; reflexivity.
Qed.

Lemma stringifyNotice_console (data : option Data) :
  existsb is_network (stringifyNotice data) = false.
Proof.
  unfold RemoteLog.stringifyNotice.
  destruct data as [d|]; [destruct (JSON_stringify d)|]; reflexivity.
Qed.

(** C7. [remoteLog] returns normally on every platform and for every
    argument.  Its events are, in this order: the formatted line on the
    console (after at most the notice of a stringify error, itself a console
    line), then the delivery: [sendBeacon] first when it exists, the
    keepalive [fetch] exactly when [sendBeacon] is missing or returned
    [false]; at most one beacon and at most one fetch are issued, and a
    failure adds console lines only.  The rejection handler of the fetch
    promise writes one console line and returns normally. *)
Theorem remoteLog_never_throws (source : string) (level : LogLevel)
        (component message : string) (data : option Data) (tr : list IOEvent) :
  let payload :=
    mkLogPayload CLIENT_ID source (LogLevel_toString level) component message
                 (dataStringOf data) in
  run (remoteLog source level component message data) tr
  = (inr tt,
     (tr ++ stringifyNotice data
         ++ [Console (consoleMethodOf level)
                     (formatMessage source level component message (dataStringOf data))]
         ++ delivery_policy payload)%list)
  /\ existsb is_network (stringifyNotice data) = false
  /\ hd_error (delivery_policy payload)
     = Some (match navigator_sendBeacon with
             | Some _ => SendBeacon "/log" payload
             | None => Fetch "/log" "POST" "application/json" payload true
             end)
  /\ existsb is_fetch (delivery_policy payload)
     = match navigator_sendBeacon with
       | None | Some (BeaconReturns false) => true
       | Some (BeaconReturns true) | Some (BeaconThrows _) => false
       end
  /\ length (filter is_beacon (delivery_policy payload)) <= 1
  /\ length (filter is_fetch (delivery_policy payload)) <= 1
  /\ forallb is_keepalive_fetch (delivery_policy payload) = true
  /\ run sendWithFetch_rejected tr
     = (inr tt, (tr ++ [Console console_error "[Remote Log] Fetch fallback failed:"])%list).
Proof.
  intros payload.
  split; [apply run_remoteLog|].
  split; [apply stringifyNotice_console|].
  destruct (delivery_policy_order payload) as [Hhd Hfetch].
  destruct (delivery_policy_counts payload) as (Hb & Hf & Hk).
  repeat split; assumption || reflexivity.
Qed.

(** C8. When [JSON.stringify] throws on the auxiliary data, the call still
    returns normally; the record carries the placeholder
    [" [Unserializable data]"] both on the console and in the body of the
    delivery attempt, which is made as for any other record. *)
Theorem remoteLog_unserializable_data (source : string) (level : LogLevel)
        (component message : string) (d : Data) (stringifyError : string)
        (tr : list IOEvent) :
  JSON_stringify d = inl stringifyError ->
  let payload :=
    mkLogPayload CLIENT_ID source (LogLevel_toString level) component message
                 " [Unserializable data]" in
  run (remoteLog source level component message (Some d)) tr
  = (inr tt,
     (tr ++ [Console console_error "[Remote Log] Error stringifying log data:";
             Console (consoleMethodOf level)
                     (formatMessage source level component message
                                    " [Unserializable data]")]
         ++ delivery_policy payload)%list)
  /\ existsb is_network (delivery_policy payload) = true.
Proof.
  intros Hthrow payload. split.
  - rewrite run_remoteLog. unfold RemoteLog.dataStringOf, RemoteLog.stringifyNotice.
    rewrite Hthrow. reflexivity.
  - unfold RemoteLog.delivery_policy, RemoteLog.fetch_fallback.
    destruct navigator_sendBeacon as [[[|]|berr]|]; reflexivity.
Qed.

End TransportProperties.

(** The placeholder on a platform where [sendBeacon] refuses the record and
    [JSON.stringify] throws on every datum. *)
Lemma remoteLog_unserializable_data_witness :
  (fun _ : unit => @inl string string "cyclic") tt = inl "cyclic"
  /\ RemoteLog.run
       (RemoteLog.remoteLog unit (fun _ => inl "cyclic") "2024-01-01T00:00:00.000Z" "client_1"
          (Some (RemoteLog.BeaconReturns false)) RemoteLog.FetchPromise
          "Client" ERROR "QRScanner" "Scanner Error" (Some tt)) []
     = (inr tt,
        [RemoteLog.Console RemoteLog.console_error "[Remote Log] Error stringifying log data:";
         RemoteLog.Console RemoteLog.console_error
           "[2024-01-01T00:00:00.000Z - client_1 - ERROR]: [Client - QRScanner] Scanner Error [Unserializable data]";
         RemoteLog.SendBeacon "/log"
           (RemoteLog.mkLogPayload "client_1" "Client" "ERROR" "QRScanner" "Scanner Error"
              " [Unserializable data]");
         RemoteLog.Console RemoteLog.console_warn
           "[Remote Log] sendBeacon returned false, attempting fetch fallback.";
         RemoteLog.Fetch "/log" "POST" "application/json"
           (RemoteLog.mkLogPayload "client_1" "Client" "ERROR" "QRScanner" "Scanner Error"
              " [Unserializable data]") true]).
Proof.
  split; [reflexivity|].
  exact (proj1 (remoteLog_unserializable_data unit (fun _ => inl "cyclic")
                  "2024-01-01T00:00:00.000Z" "client_1"
                  (Some (RemoteLog.BeaconReturns false)) RemoteLog.FetchPromise
                  "Client" ERROR "QRScanner" "Scanner Error" tt "cyclic" [] eq_refl)).
Defined.

(** * Properties of the session controller *)

Section ControllerProperties.

Import QRScanner Spec.

Variable ScannerService_throws : ServiceId -> option string.
Variable getUserMedia_defined : bool.

Local Abbreviation handleStartScan := (QRScanner.handleStartScan ScannerService_throws).
Local Abbreviation handleDeviceChange := (QRScanner.handleDeviceChange ScannerService_throws).
Local Abbreviation step := (QRScanner.step ScannerService_throws getUserMedia_defined).
Local Abbreviation run := (QRScanner.run ScannerService_throws getUserMedia_defined).
Local Abbreviation autoStarts := (QRScanner.autoStarts ScannerService_throws getUserMedia_defined).

Local Arguments String.append : simpl never.

(** Unfolding of the handlers down to the state monad. *)
Ltac expose :=
  unfold QRScanner.step, QRScanner.handle, QRScanner.autoStartEffect,
    QRScanner.handleDeviceChange, QRScanner.handleToggleScan, QRScanner.handleStartScan,
    QRScanner.resolveDeviceId, QRScanner.startRejected, QRScanner.startFailed,
    QRScanner.startResolved, QRScanner.refreshResolved, QRScanner.refreshRejected,
    QRScanner.handleStopScan, QRScanner.handleError, QRScanner.handleScanSuccess,
    QRScanner.primeAndList, QRScanner.primeResolved, QRScanner.primeRejected,
    QRScanner.listResolved, QRScanner.listRejected, QRScanner.listCameras,
    QRScanner.finishedLoading, QRScanner.cleanup, QRScanner.stopCurrentService,
    QRScanner.remoteLog, QRScanner.construction,
    setDevices, setSelectedDeviceId, setIsScanning, setIsLoadingCameras, setScanResult,
    setError, set_scannerServiceRef, set_hasAutoStartedRef, set_videoRef, set_cancelled,
    perform, update, read, nullish_coalesce, js_not, js_or, isEmpty,
    execState, evalState in *.

(** Case analysis on whatever a handler branches on. *)
Ltac branch :=
  expose;
  repeat (simpl in *;
          match goal with
          | H : ScannerService_throws ?n = _ |- context [ScannerService_throws ?n] =>
              rewrite H
          | |- context [match ScannerService_throws ?n with _ => _ end] =>
              destruct (ScannerService_throws n) eqn:?
          | |- context [if existsb hasLabel ?l then _ else _] =>
              destruct (existsb hasLabel l) eqn:?
          | |- context [match ?x with _ => _ end] => is_var x; destruct x
          | |- context [match deviceId ?x with _ => _ end] => is_var x; destruct x
          | |- context [if ?x then _ else _] => is_var x; destruct x
          | |- context [negb ?x] => is_var x; destruct x
          | |- context [andb ?x _] => is_var x; destruct x
          end);
  simpl in *.

Ltac world w :=
  destruct w as [[video ref auto devs sel scanning loading result err cancel] next tr].

(** ** Stop *)

Lemma handleStopScan_idle (w : World) :
  scannerServiceRef (ctl w) = None ->
  isScanning (ctl w) = false ->
  runState handleStopScan w
  = (tt, mkWorld (ctl w) (nextService w)
           (trace w ++ [Log "Client" INFO "QRScanner" "Stop scan button clicked." None])).
Proof.
  world w. simpl. intros -> ->. reflexivity.
Qed.

Lemma handleStopScan_stops (w : World) :
  scannerServiceRef (ctl (execState handleStopScan w)) = None
  /\ isScanning (ctl (execState handleStopScan w)) = false.
Proof.
  world w. branch; split; reflexivity.
Qed.

(** C5. [handleStopScan] runs from every state and leaves no scanner service
    and [isScanning = false]; on an idle controller (no scanner service, not
    scanning) it changes nothing and only writes its log line; a second stop
    right after a first one changes nothing either. *)
Theorem handleStopScan_idempotent (w : World) :
  (scannerServiceRef (ctl (execState handleStopScan w)) = None
   /\ isScanning (ctl (execState handleStopScan w)) = false)
  /\ (scannerServiceRef (ctl w) = None ->
      isScanning (ctl w) = false ->
      runState handleStopScan w
      = (tt, mkWorld (ctl w) (nextService w)
               (trace w ++ [Log "Client" INFO "QRScanner" "Stop scan button clicked." None])))
  /\ runState handleStopScan (execState handleStopScan w)
     = (tt, mkWorld (ctl (execState handleStopScan w))
              (nextService (execState handleStopScan w))
              (trace (execState handleStopScan w)
                 ++ [Log "Client" INFO "QRScanner" "Stop scan button clicked." None])).
Proof.
  split; [apply handleStopScan_stops|].
  split; [apply handleStopScan_idle|].
  destruct (handleStopScan_stops w) as [Href Hscan].
  apply handleStopScan_idle; assumption.
Qed.

(** ** The refresh after a successful start *)

Lemma hasBetterLabels_iff (videoDevices : list MediaDeviceInfo) :
  existsb hasLabel videoDevices = true
  <-> exists d, In d videoDevices /\ label d <> "".
Proof.
  rewrite existsb_exists. split; intros [d [Hin Hd]]; exists d; split; trivial;
    unfold hasLabel, isEmpty in *; destruct (label d); simpl in *; congruence.
Qed.

(** C9. The refresh that follows a successful start replaces the device list
    exactly when the new list has a device with a label ([hasLabel]: the label
    is not the empty string); it leaves the selected device id, every other
    field, the scanner service and the effects as they were.  A refresh that
    fails only writes a log line. *)
Theorem refresh_keeps_selection (w : World) (videoDevices : list MediaDeviceInfo)
        (refreshError : string) :
  runState (refreshResolved videoDevices) w
  = (tt, if existsb hasLabel videoDevices
         then mkWorld (withDevices (ctl w) videoDevices) (nextService w) (trace w)
         else w)
  /\ selectedDeviceId (ctl (execState (refreshResolved videoDevices) w))
     = selectedDeviceId (ctl w)
  /\ runState (refreshRejected refreshError) w
     = (tt, mkWorld (ctl w) (nextService w)
              (trace w ++ [Log "Client" WARN "QRScanner"
                               "Failed to re-fetch devices after start" (Some refreshError)])).
Proof.
  world w. unfold withDevices. branch; repeat split; reflexivity.
Qed.

(** ** The device id a start resolves *)

Lemma resolveDeviceId_string (deviceIdOverride : option string) (w : World) :
  exists id, evalState (resolveDeviceId deviceIdOverride) w = js_string id.
Proof.
  world w. destruct deviceIdOverride as [o|]; branch; eexists; reflexivity.
Qed.

Lemma handleStartScan_not_NoUsableDevice (deviceIdOverride : option string) (w : World) :
  evalState (handleStartScan deviceIdOverride) w <> NoUsableDevice.
Proof.
  world w. destruct deviceIdOverride as [o|]; branch; discriminate.
Qed.

(** C10. The local [deviceIdToUse] is a string on every call, so no call of
    [handleStartScan] ends in the branch "No camera device available or
    selected.".  With an empty device list, no selection and no override the
    id is the empty string; the call passes the guard and, the video element
    being there and no scan running, constructs a [ScannerService] for the
    device id [""] and calls its [start()]. *)
Theorem no_device_branch_unreachable (deviceIdOverride : option string) (w : World) :
  (exists id, evalState (resolveDeviceId deviceIdOverride) w = js_string id)
  /\ evalState (handleStartScan deviceIdOverride) w <> NoUsableDevice
  /\ (devices (ctl w) = [] ->
      selectedDeviceId (ctl w) = "" ->
      evalState (resolveDeviceId None) w = js_string ""
      /\ (videoRef (ctl w) = true ->
          isScanning (ctl w) = false ->
          ScannerService_throws (nextService w) = None ->
          evalState (handleStartScan None) w = StartPending (nextService w)
          /\ isScanning (ctl (execState (handleStartScan None) w)) = true
          /\ trace (execState (handleStartScan None) w)
             = (trace w
                 ++ [Log "Client" INFO "QRScanner" "Starting scan with deviceId: ''" None]
                 ++ stopOf (scannerServiceRef (ctl w))
                 ++ [Log "Client" INFO "QRScanner" "Initializing ScannerService..." None;
                     NewScannerService (nextService w) "";
                     Log "Client" INFO "QRScanner"
                       "ScannerService initialized. Calling start()..." None;
                     ServiceStart (nextService w)])%list)).
Proof.
  split; [apply resolveDeviceId_string|].
  split; [apply handleStartScan_not_NoUsableDevice|].
  world w. simpl. intros -> ->. split; [reflexivity|].
  intros -> -> Hnew.
  destruct ref as [j|]; expose; simpl in *; rewrite Hnew; simpl;
    repeat rewrite <- app_assoc; repeat split; reflexivity.
Qed.

(** ** A start that proceeds *)

(** What a start does when the video element is there and no scan runs: it
    logs, stops the service it finds, and only then constructs and starts the
    new one (or fails in its constructor). *)
Lemma handleStartScan_proceeds (deviceIdOverride : option string) (w : World) :
  videoRef (ctl w) = true ->
  isScanning (ctl w) = false ->
  exists logs : list Effect,
    forallb isLog logs = true
    /\ runState (handleStartScan deviceIdOverride) w
       = match ScannerService_throws (nextService w) with
         | None =>
             (StartPending (nextService w),
              mkWorld (startedWith (ctl w) (nextService w)) (S (nextService w))
                (trace w ++ logs ++ stopOf (scannerServiceRef (ctl w))
                   ++ [Log "Client" INFO "QRScanner" "Initializing ScannerService..." None;
                       NewScannerService (nextService w) (deviceIdUsed deviceIdOverride w);
                       Log "Client" INFO "QRScanner"
                         "ScannerService initialized. Calling start()..." None;
                       ServiceStart (nextService w)]))
         | Some err =>
             (StartFailed,
              mkWorld (failedWith (ctl w) err) (S (nextService w))
                (trace w ++ logs ++ stopOf (scannerServiceRef (ctl w))
                   ++ [Log "Client" INFO "QRScanner" "Initializing ScannerService..." None;
                       Log "Client" ERROR "QRScanner"
                         "Error initializing or starting ScannerService" (Some err);
                       Log "Client" ERROR "QRScanner" "Scanner Error" (Some err)]))
         end.
Proof.
  world w. simpl. intros -> ->. unfold startedWith, failedWith, deviceIdUsed.
  destruct deviceIdOverride as [o|]; branch;
    repeat rewrite <- app_assoc; simpl;
    solve [ eexists [_]; (split; [|reflexivity]); reflexivity
          | eexists [_; _]; (split; [|reflexivity]); reflexivity ].
Qed.

(** ** Changing the device *)

(** [handleDeviceChange newId] by its branches: it records [newId] as the
    selected device and then, on [isScanning], does what [handleStopScan]
    does; otherwise it does what [handleStartScan newId] does, without calling
    [handleStopScan]. *)
Lemma handleDeviceChange_branches (newId : string) (w : World) :
  runState (handleDeviceChange newId) w
  = runState (setSelectedDeviceId newId ;;
              if isScanning (ctl w) then handleStopScan
              else handleStartScan (Some newId) ;; ret tt) w
  /\ selectedDeviceId (ctl (execState (handleDeviceChange newId) w)) = newId
  /\ (if isScanning (ctl w)
      then isScanning (ctl (execState (handleDeviceChange newId) w)) = false
           /\ scannerServiceRef (ctl (execState (handleDeviceChange newId) w)) = None
           /\ nextService (execState (handleDeviceChange newId) w) = nextService w
           /\ trace (execState (handleDeviceChange newId) w)
              = (trace w
                   ++ [Log "Client" INFO "QRScanner" "Stop scan button clicked." None]
                   ++ stopOf (scannerServiceRef (ctl w)))%list
      else ~ In (Log "Client" INFO "QRScanner" "Stop scan button clicked." None)
             (skipn (length (trace w)) (trace (execState (handleDeviceChange newId) w)))).
Proof.
  world w. split; [destruct scanning; reflexivity|].
  split.
  - branch; reflexivity.
  - destruct scanning.
    + destruct ref as [j|]; expose; simpl; repeat rewrite <- app_assoc;
        repeat split; reflexivity.
    + branch;
        repeat rewrite <- app_assoc;
        first [rewrite skipn_app, skipn_all, Nat.sub_diag | rewrite skipn_all]; simpl;
        intuition discriminate.
Qed.

Lemma selectDisabled_false (c : Controller) :
  selectDisabled c = false ->
  isScanning c = false /\ isLoadingCameras c = false /\ devices c <> [].
Proof.
  unfold selectDisabled.
  destruct (isScanning c), (isLoadingCameras c), (devices c); simpl; try discriminate.
  intros _. repeat split; discriminate.
Qed.


(** ** A start that resolves after a stop *)

(** C6 as amended. When [handleStopScan] runs between a start and the
    resolution of its [start()], the stop has called [stop()] on that very
    service and dropped it from [scannerServiceRef]; the resumed start changes
    no state (so [isScanning] stays [false]) and calls nothing on a scanner
    service: it writes its log line and asks for the device list.  The same
    holds when the component is unmounted in between: the cleanup of the
    mount effect has called [stop()] on the service and dropped it, and the
    resumed start changes no state, calls nothing on a scanner service and
    is followed by no automatic start.  A [start()] that rejects after the
    stop or the unmount leaves [isScanning = false] and no service
    referenced. *)
Theorem stale_start_stays_stopped (w : World) (deviceIdOverride : option string)
        (startError : string) :
  videoRef (ctl w) = true ->
  isScanning (ctl w) = false ->
  ScannerService_throws (nextService w) = None ->
  let started := execState (handleStartScan deviceIdOverride) w in
  let stopped := execState handleStopScan started in
  let resumed := execState startResolved stopped in
  let unmounted :=
    execState (handle ScannerService_throws getUserMedia_defined Unmount) started in
  let resumedUnmounted := execState startResolved unmounted in
  (scannerServiceRef (ctl started) = Some (nextService w)
   /\ isScanning (ctl started) = true)
  /\ (isScanning (ctl stopped) = false
      /\ scannerServiceRef (ctl stopped) = None
      /\ trace stopped
         = (trace started
              ++ [Log "Client" INFO "QRScanner" "Stop scan button clicked." None;
                  ServiceStop (nextService w)])%list)
  /\ (ctl resumed = ctl stopped
      /\ nextService resumed = nextService stopped
      /\ trace resumed
         = (trace stopped
              ++ [Log "Client" INFO "QRScanner"
                      "Scanner started successfully via start()." None;
                  ListDevices])%list)
  /\ (isScanning (ctl (execState (startRejected startError) stopped)) = false
      /\ scannerServiceRef (ctl (execState (startRejected startError) stopped)) = None)
  /\ (scannerServiceRef (ctl unmounted) = None
      /\ cancelled (ctl unmounted) = true
      /\ videoRef (ctl unmounted) = false
      /\ trace unmounted
         = (trace started
              ++ [Log "Client" INFO "QRScanner" "Cleanup on unmount." None;
                  Log "Client" INFO "QRScanner" "Stopping scanner during unmount cleanup."
                      None;
                  ServiceStop (nextService w)])%list)
  /\ (ctl resumedUnmounted = ctl unmounted
      /\ nextService resumedUnmounted = nextService unmounted
      /\ trace resumedUnmounted
         = (trace unmounted
              ++ [Log "Client" INFO "QRScanner"
                      "Scanner started successfully via start()." None;
                  ListDevices])%list
      /\ runState (step StartResolved) unmounted = (false, resumedUnmounted))
  /\ (isScanning (ctl (execState (startRejected startError) unmounted)) = false
      /\ scannerServiceRef (ctl (execState (startRejected startError) unmounted)) = None).
Proof.
  intros Hvideo Hscan Hnew.
  destruct (handleStartScan_proceeds deviceIdOverride w Hvideo Hscan)
    as (logs & _ & Hrun).
  rewrite Hnew in Hrun. intros started.
  assert (Hstarted : started = snd (runState (handleStartScan deviceIdOverride) w))
    by reflexivity.
  rewrite Hrun in Hstarted. clearbody started. subst started. clear Hrun.
  world w. unfold startedWith. simpl in *. subst.
  expose; simpl; repeat rewrite <- app_assoc; simpl; repeat split; reflexivity.
Qed.

(** ** One session at a time *)

Lemma openSessions_snoc (tr : list Effect) (e : Effect) :
  openSessions (tr ++ [e]) = sessionEffect (openSessions tr) e.
Proof.
  unfold openSessions. rewrite fold_left_app. reflexivity.
Qed.

Lemma atMostOneOpen_snoc (tr : list Effect) (e : Effect) :
  atMostOneOpen tr ->
  length (sessionEffect (openSessions tr) e) <= 1 ->
  atMostOneOpen (tr ++ [e]).
Proof.
  intros Htr He n. rewrite firstn_app.
  destruct (Nat.le_gt_cases n (length tr)) as [Hle|Hgt].
  - replace (n - length tr) with 0 by lia. simpl. rewrite app_nil_r. apply Htr.
  - rewrite firstn_all2 by lia.
    destruct (n - length tr) as [|k] eqn:Hk; [lia|].
    simpl. rewrite firstn_nil, openSessions_snoc. exact He.
Qed.

Lemma tracked_quiet (ref : option ServiceId) (tr : list Effect) (e : Effect) :
  Tracked ref tr -> quiet e = true -> Tracked ref (tr ++ [e]).
Proof.
  intros [Hone Hopen] Hq. split.
  - apply atMostOneOpen_snoc; [assumption|].
    rewrite Hopen. destruct e, ref; simpl in *; try discriminate; lia.
  - rewrite openSessions_snoc, Hopen. destruct e; simpl in *; try discriminate; reflexivity.
Qed.

Lemma tracked_stop (i : ServiceId) (tr : list Effect) :
  Tracked (Some i) tr -> Tracked None (tr ++ [ServiceStop i]).
Proof.
  intros [Hone Hopen].
  assert (Hclosed : sessionEffect (openSessions tr) (ServiceStop i) = []).
  { rewrite Hopen. simpl. rewrite Nat.eqb_refl. reflexivity. }
  split.
  - apply atMostOneOpen_snoc; [assumption|]. rewrite Hclosed. simpl. lia.
  - rewrite openSessions_snoc. exact Hclosed.
Qed.

Lemma tracked_start (i : ServiceId) (tr : list Effect) :
  Tracked None tr -> Tracked (Some i) (tr ++ [ServiceStart i]).
Proof.
  intros [Hone Hopen]. split.
  - apply atMostOneOpen_snoc; [assumption|]. rewrite Hopen. simpl. lia.
  - rewrite openSessions_snoc, Hopen. reflexivity.
Qed.

(** Peels the effects of a handler off the trace, last one first. *)
Ltac track H :=
  repeat first
    [ exact H
    | apply tracked_quiet; [|reflexivity]
    | apply tracked_stop
    | apply tracked_start ].

Lemma keeps_ret (P : World -> Prop) {A : Type} (a : A) : Keeps P (ret a : M A).
Proof. intros w Hw. exact Hw. Qed.

Lemma keeps_bind (P : World -> Prop) {A B : Type} (c : M A) (f : A -> M B) :
  Keeps P c -> (forall a, Keeps P (f a)) -> Keeps P (bind c f).
Proof.
  intros Hc Hf w Hw. unfold execState. simpl.
  specialize (Hc w Hw). unfold execState in Hc.
  destruct (runState c w) as [a w1]. apply (Hf a w1 Hc).
Qed.

Lemma keeps_read (P : World -> Prop) : Keeps P read.
Proof. intros w Hw. exact Hw. Qed.

Lemma handleStartScan_consistent (deviceIdOverride : option string) :
  Keeps Consistent (handleStartScan deviceIdOverride).
Proof.
  unfold Keeps, Consistent. intros w. world w. simpl. intros H.
  destruct deviceIdOverride as [o|]; branch; track H.
Qed.

Lemma handle_consistent (e : Event) :
  Keeps Consistent (handle ScannerService_throws getUserMedia_defined e).
Proof.
  unfold Keeps, Consistent. intros w. world w. simpl. intros H.
  destruct e; branch; track H.
Qed.

Lemma autoStartEffect_consistent :
  Keeps Consistent (autoStartEffect ScannerService_throws).
Proof.
  unfold Keeps, Consistent. intros w. world w. simpl. intros H.
  branch; track H.
Qed.

Lemma step_consistent (e : Event) : Keeps Consistent (step e).
Proof.
  unfold QRScanner.step.
  apply keeps_bind; [apply handle_consistent|]. intros _.
  apply keeps_bind; [apply keeps_read|]. intros c.
  destruct (cancelled c); [apply keeps_ret | apply autoStartEffect_consistent].
Qed.

Lemma run_consistent (evs : list Event) (w : World) :
  Consistent w -> Consistent (run evs w).
Proof.
  revert w. induction evs as [|e evs IH]; intros w Hw; simpl; [assumption|].
  apply IH, step_consistent, Hw.
Qed.

Lemma initial_consistent : Consistent initial.
Proof.
  split; [|reflexivity].
  intros n. destruct n; simpl; lia.
Qed.

(** A start while a scan is running. *)
Lemma handleStartScan_while_scanning (deviceIdOverride : option string) (w : World) :
  videoRef (ctl w) = true ->
  isScanning (ctl w) = true ->
  exists notice : list Effect,
    forallb isLog notice = true
    /\ runState (handleStartScan deviceIdOverride) w
       = (AlreadyScanning,
          mkWorld (ctl w) (nextService w)
            (trace w ++ notice
               ++ [Log "Client" WARN "QRScanner"
                       "Start scan called while already scanning." None])).
Proof.
  world w. simpl. intros -> ->.
  destruct deviceIdOverride as [o|]; branch;
    repeat rewrite <- app_assoc; simpl;
    solve [ exists []; split; reflexivity
          | eexists [_]; (split; [|reflexivity]); reflexivity ].
Qed.

(** C1. Along every sequence of events from the mounted component (the
    user's starts, stops and device changes, the settling of the promises the
    component awaits, the callbacks of the scanner service, the unmount), at
    most one scanner-service session is open after every prefix of the
    effects issued.  A start that finds a scan running changes nothing,
    constructs nothing and only logs, its last line being the warning.  A
    start that proceeds calls [stop()] on the service it finds before it
    constructs the new one, which replaces it in [scannerServiceRef]. *)
Theorem single_session (evs : list Event) (n : nat) (w : World)
        (deviceIdOverride : option string) :
  length (openSessions (firstn n (trace (run evs initial)))) <= 1
  /\ (videoRef (ctl w) = true ->
      isScanning (ctl w) = true ->
      exists notice : list Effect,
        forallb isLog notice = true
        /\ runState (handleStartScan deviceIdOverride) w
           = (AlreadyScanning,
              mkWorld (ctl w) (nextService w)
                (trace w ++ notice
                   ++ [Log "Client" WARN "QRScanner"
                           "Start scan called while already scanning." None])))
  /\ (videoRef (ctl w) = true ->
      isScanning (ctl w) = false ->
      exists logs : list Effect,
        forallb isLog logs = true
        /\ runState (handleStartScan deviceIdOverride) w
           = match ScannerService_throws (nextService w) with
             | None =>
                 (StartPending (nextService w),
                  mkWorld (startedWith (ctl w) (nextService w)) (S (nextService w))
                    (trace w ++ logs ++ stopOf (scannerServiceRef (ctl w))
                       ++ [Log "Client" INFO "QRScanner" "Initializing ScannerService..."
                               None;
                           NewScannerService (nextService w)
                             (deviceIdUsed deviceIdOverride w);
                           Log "Client" INFO "QRScanner"
                             "ScannerService initialized. Calling start()..." None;
                           ServiceStart (nextService w)]))
             | Some err =>
                 (StartFailed,
                  mkWorld (failedWith (ctl w) err) (S (nextService w))
                    (trace w ++ logs ++ stopOf (scannerServiceRef (ctl w))
                       ++ [Log "Client" INFO "QRScanner" "Initializing ScannerService..."
                               None;
                           Log "Client" ERROR "QRScanner"
                             "Error initializing or starting ScannerService" (Some err);
                           Log "Client" ERROR "QRScanner" "Scanner Error" (Some err)]))
             end).
Proof.
  split; [|split].
  - apply (run_consistent evs initial initial_consistent).
  - apply handleStartScan_while_scanning.
  - apply handleStartScan_proceeds.
Qed.

(** ** The auto-start flag *)

Lemma handle_flag (e : Event) (w : World) :
  hasAutoStartedRef
    (ctl (execState (handle ScannerService_throws getUserMedia_defined e) w))
  = hasAutoStartedRef (ctl w).
Proof.
  world w. destruct e; branch; reflexivity.
Qed.

Lemma autoStartEffect_flag (w : World) :
  evalState (autoStartEffect ScannerService_throws) w
  = (negb (hasAutoStartedRef (ctl w))
     && hasAutoStartedRef (ctl (execState (autoStartEffect ScannerService_throws) w)))%bool
  /\ Bool.le (hasAutoStartedRef (ctl w))
             (hasAutoStartedRef (ctl (execState (autoStartEffect ScannerService_throws) w))).
Proof.
  world w. branch; split; reflexivity.
Qed.

Lemma step_flag (e : Event) (w : World) :
  evalState (step e) w
  = (negb (hasAutoStartedRef (ctl w))
     && hasAutoStartedRef (ctl (execState (step e) w)))%bool
  /\ Bool.le (hasAutoStartedRef (ctl w)) (hasAutoStartedRef (ctl (execState (step e) w))).
Proof.
  pose proof (handle_flag e w) as Hh.
  unfold QRScanner.step, execState, evalState in *. simpl.
  destruct (runState (handle ScannerService_throws getUserMedia_defined e) w) as [u w1].
  simpl in *. rewrite <- Hh.
  destruct (cancelled (ctl w1)).
  - simpl. destruct (hasAutoStartedRef (ctl w1)); split; reflexivity.
  - apply autoStartEffect_flag.
Qed.

(** C4. From any state of the component and along any sequence of events
    (device lists arriving, selection changes, starts, stops, errors) the
    auto-start effect calls [handleStartScan] at most once, and not at all
    once [hasAutoStartedRef] is set; the flag, once set, stays set. *)
Theorem auto_start_once (evs : list Event) (w : World) :
  autoStarts evs w <= (if hasAutoStartedRef (ctl w) then 0 else 1)
  /\ Bool.le (hasAutoStartedRef (ctl w)) (hasAutoStartedRef (ctl (run evs w))).
Proof.
  revert w. induction evs as [|e evs IH]; intros w; simpl.
  - split; [destruct (hasAutoStartedRef (ctl w)); lia|].
    destruct (hasAutoStartedRef (ctl w)); reflexivity.
  - destruct (step_flag e w) as [Hfired Hle].
    destruct (IH (execState (step e) w)) as [IHn IHle].
    rewrite Hfired.
    destruct (hasAutoStartedRef (ctl w)); simpl in *.
    + rewrite Hle in *. split; [lia | exact IHle].
    + split; [|exact I].
      destruct (hasAutoStartedRef (ctl (execState (step e) w))); lia.
Qed.

(** ** Further behaviour of the component *)

Local Abbreviation handle := (QRScanner.handle ScannerService_throws getUserMedia_defined).
Local Abbreviation handleToggleScan := (QRScanner.handleToggleScan ScannerService_throws).
Local Abbreviation primeAndList := (QRScanner.primeAndList getUserMedia_defined).

Lemma run_app (evs evs' : list Event) (w : World) :
  run (evs ++ evs') w = run evs' (run evs w).
Proof.
  revert w. induction evs as [|e evs IH]; intros w; simpl; [reflexivity | apply IH].
Qed.

Lemma last_app_cons {A : Type} (l l' : list A) (x d : A) :
  last (l ++ x :: l')%list d = last (x :: l') d.
Proof.
  induction l as [|y l IH]; [reflexivity|].
  simpl app. rewrite <- IH. simpl. destruct (l ++ x :: l')%list eqn:E; [|reflexivity].
  destruct l; discriminate.
Qed.

Lemma execState_bind {A B : Type} (c : M A) (f : A -> M B) (w : World) :
  execState (bind c f) w = execState (f (evalState c w)) (execState c w).
Proof.
  unfold execState, evalState. simpl. destruct (runState c w). reflexivity.
Qed.

Lemma handleToggleScan_exec (w : World) :
  execState handleToggleScan w
  = if isScanning (ctl w) then execState handleStopScan w
    else execState (handleStartScan None) w.
Proof.
  unfold QRScanner.handleToggleScan. rewrite execState_bind.
  change (evalState read w) with (ctl w). change (execState read w) with w.
  destruct (isScanning (ctl w)); [reflexivity|].
  rewrite execState_bind. reflexivity.
Qed.

Lemma step_Unmount_ref (w : World) :
  scannerServiceRef (ctl (execState (step Unmount) w)) = None.
Proof.
  world w. branch; reflexivity.
Qed.

(** X12. Along every sequence of events from the mounted component, a stop
    leaves no scanner service referenced and no session open, and so does the
    unmount: the cleanup of the mount effect stops the service that is
    there. *)
Theorem stop_and_unmount_release (evs : list Event) :
  (scannerServiceRef (ctl (execState handleStopScan (run evs initial))) = None
   /\ openSessions (trace (execState handleStopScan (run evs initial))) = [])
  /\ (scannerServiceRef (ctl (run (evs ++ [Unmount]) initial)) = None
      /\ openSessions (trace (run (evs ++ [Unmount]) initial)) = []).
Proof.
  pose proof (run_consistent evs initial initial_consistent) as Hw.
  split.
  - pose proof (handle_consistent StopScan _ Hw) as [_ Hopen].
    destruct (handleStopScan_stops (run evs initial)) as [Href _].
    simpl in Hopen. rewrite Href in Hopen. split; assumption.
  - rewrite run_app. simpl.
    pose proof (step_consistent Unmount _ Hw) as [_ Hopen].
    rewrite step_Unmount_ref in Hopen. split; [apply step_Unmount_ref | exact Hopen].
Qed.

(** X13. Once the component is unmounted (the mount effect's [cancelled] is
    set), a device list that arrives, or the failure of its request, changes
    nothing: no state, no log line, no automatic start. *)
Theorem unmounted_list_is_discarded (w : World) (videoDevices : list MediaDeviceInfo)
        (listError : string) :
  cancelled (ctl w) = true ->
  runState (step (ListResolved videoDevices)) w = (false, w)
  /\ runState (step (ListRejected listError)) w = (false, w).
Proof.
  world w. simpl. intros ->. split; reflexivity.
Qed.

(** X14. On a mounted component that has not started automatically yet and is
    not scanning, the arrival of a device list with at least one device
    selects the first device, ends the loading and starts a scan on that
    device at once: a scanner service is constructed for its id and
    started. *)
Theorem first_list_starts_first_device (w : World) (d0 : MediaDeviceInfo)
        (ds : list MediaDeviceInfo) :
  cancelled (ctl w) = false ->
  videoRef (ctl w) = true ->
  isScanning (ctl w) = false ->
  hasAutoStartedRef (ctl w) = false ->
  ScannerService_throws (nextService w) = None ->
  evalState (step (ListResolved (d0 :: ds))) w = true
  /\ ctl (execState (step (ListResolved (d0 :: ds))) w)
     = mkController true (Some (nextService w)) true (d0 :: ds) (deviceId d0) true false
                    None None false
  /\ In (NewScannerService (nextService w) (deviceId d0))
        (trace (execState (step (ListResolved (d0 :: ds))) w))
  /\ last (trace (execState (step (ListResolved (d0 :: ds))) w)) ListDevices
     = ServiceStart (nextService w).
Proof.
  world w. simpl. intros -> -> -> -> Hnew.
  destruct d0 as [id0 label0].
  destruct ref as [j|]; destruct id0 as [|c id0]; expose; simpl; rewrite Hnew; simpl;
    repeat rewrite <- app_assoc; simpl;
    (split; [reflexivity|]); (split; [reflexivity|]);
    (split; [apply in_or_app; right; simpl; auto 10 | rewrite last_app_cons; reflexivity]).
Qed.

(** X15. An empty device list, or a failed request for it, ends the loading
    with no device and no selection, the failure with its message as the
    error; no scan is started and no scanner service constructed. *)
Theorem empty_list_starts_nothing (w : World) (listError : string) :
  cancelled (ctl w) = false ->
  (evalState (step (ListResolved [])) w = false
   /\ ctl (execState (step (ListResolved [])) w)
      = mkController (videoRef (ctl w)) (scannerServiceRef (ctl w))
          (hasAutoStartedRef (ctl w)) [] "" (isScanning (ctl w)) false
          (scanResult (ctl w)) None false
   /\ nextService (execState (step (ListResolved [])) w) = nextService w)
  /\ (evalState (step (ListRejected listError)) w = false
      /\ ctl (execState (step (ListRejected listError)) w)
         = mkController (videoRef (ctl w)) (scannerServiceRef (ctl w))
             (hasAutoStartedRef (ctl w)) [] "" (isScanning (ctl w)) false
             (scanResult (ctl w)) (Some ("Failed to list cameras: " ++ listError)) false
      /\ nextService (execState (step (ListRejected listError)) w) = nextService w).
Proof.
  world w. simpl. intros ->. repeat split; reflexivity.
Qed.

(** X16. Whether the permission priming is skipped, granted or denied, the
    mount effect goes on to ask for the device list with the loading flag
    set; a granted stream has its tracks stopped before that, a denial is
    logged as a warning.  No scanner service is touched. *)
Theorem priming_never_blocks_listing (w : World) (permErr : string) :
  (ctl (execState primeResolved w) = ctl (execState (primeRejected permErr) w)
   /\ isLoadingCameras (ctl (execState primeResolved w)) = true)
  /\ trace (execState primeResolved w)
     = (trace w ++ [StopTracks;
                    Log "Client" INFO "QRScanner" "Fetching camera devices..." None;
                    ListDevices])%list
  /\ trace (execState (primeRejected permErr) w)
     = (trace w ++ [Log "Client" WARN "QRScanner"
                        "Camera permission not granted or unavailable" (Some permErr);
                    Log "Client" INFO "QRScanner" "Fetching camera devices..." None;
                    ListDevices])%list
  /\ trace (execState primeAndList w)
     = (trace w
          ++ Log "Client" INFO "QRScanner" "Priming camera permission via getUserMedia..."
                 None
          :: if getUserMedia_defined then [GetUserMedia]
             else [Log "Client" INFO "QRScanner" "Fetching camera devices..." None;
                   ListDevices])%list.
Proof.
  world w. expose. simpl. destruct getUserMedia_defined; simpl;
    repeat rewrite <- app_assoc; repeat split; reflexivity.
Qed.

(** X17. The callbacks of the scanner service call nothing on it.  A result
    is stored and scanning goes on.  An error ends scanning for the
    component and leaves a message that is never empty, but the service
    stays referenced and its session open: it is stopped by the next start,
    stop or unmount. *)
Theorem callbacks_keep_the_service (w : World) (scanned scanError : string) :
  (runState (handleScanSuccess scanned) w
   = (tt, mkWorld (mkController (videoRef (ctl w)) (scannerServiceRef (ctl w))
                     (hasAutoStartedRef (ctl w)) (devices (ctl w))
                     (selectedDeviceId (ctl w)) (isScanning (ctl w))
                     (isLoadingCameras (ctl w)) (Some scanned) None (cancelled (ctl w)))
            (nextService w) (trace w)))
  /\ (runState (handleError scanError) w
      = (tt, mkWorld (mkController (videoRef (ctl w)) (scannerServiceRef (ctl w))
                        (hasAutoStartedRef (ctl w)) (devices (ctl w))
                        (selectedDeviceId (ctl w)) false
                        (isLoadingCameras (ctl w)) None
                        (Some (js_or scanError "An unknown error occurred during scanning."))
                        (cancelled (ctl w)))
               (nextService w)
               (trace w ++ [Log "Client" ERROR "QRScanner" "Scanner Error" (Some scanError)])))
  /\ js_or scanError "An unknown error occurred during scanning." <> ""
  /\ openSessions (trace (execState (handleError scanError) w)) = openSessions (trace w).
Proof.
  world w. split; [reflexivity|]. split; [reflexivity|]. split.
  - destruct scanError; discriminate.
  - expose. simpl. rewrite openSessions_snoc. reflexivity.
Qed.

Lemma handle_scanningHasService (e : Event) : Keeps (fun w => scanningHasService w = true) (handle e).
Proof.
  unfold Keeps, scanningHasService. intros w. world w. simpl. intros H.
  destruct e; branch;
    solve [ reflexivity | exact H | discriminate H
          | destruct cancel; first [reflexivity | exact H | discriminate H] ].
Qed.

Lemma autoStartEffect_scanningHasService :
  Keeps (fun w => scanningHasService w = true) (autoStartEffect ScannerService_throws).
Proof.
  unfold Keeps, scanningHasService. intros w. world w. simpl. intros H.
  branch;
    solve [ reflexivity | exact H | discriminate H
          | destruct cancel; first [reflexivity | exact H | discriminate H] ].
Qed.

(** X18. Along every sequence of events from the mounted component, as long
    as it is mounted, [isScanning] is only set while a scanner service is
    referenced. *)
Theorem scanning_has_service (evs : list Event) :
  scanningHasService (run evs initial) = true.
Proof.
  assert (Hstep : forall e, Keeps (fun w => scanningHasService w = true) (step e)).
  { intros e. unfold QRScanner.step.
    apply keeps_bind; [apply handle_scanningHasService|]. intros _.
    apply keeps_bind; [apply keeps_read|]. intros c.
    destruct (cancelled c); [apply keeps_ret | apply autoStartEffect_scanningHasService]. }
  assert (Hrun : forall w, scanningHasService w = true -> scanningHasService (run evs w) = true).
  { induction evs as [|e evs' IH]; intros w Hw; simpl; [exact Hw|].
    apply IH, Hstep, Hw. }
  apply Hrun. reflexivity.
Qed.

Lemma handle_frame (e : Event) (w : World) :
  (if selects e then True
   else selectedDeviceId (ctl (execState (handle e) w)) = selectedDeviceId (ctl w))
  /\ (if lists e then True
      else devices (ctl (execState (handle e) w)) = devices (ctl w)).
Proof.
  world w. destruct e; simpl selects; simpl lists; cbv iota; split; trivial;
    branch; reflexivity.
Qed.

Lemma autoStartEffect_frame (w : World) :
  selectedDeviceId (ctl (execState (autoStartEffect ScannerService_throws) w))
  = selectedDeviceId (ctl w)
  /\ devices (ctl (execState (autoStartEffect ScannerService_throws) w)) = devices (ctl w).
Proof.
  world w. branch; split; reflexivity.
Qed.

Lemma step_exec (e : Event) (w : World) :
  execState (step e) w
  = if cancelled (ctl (execState (handle e) w)) then execState (handle e) w
    else execState (autoStartEffect ScannerService_throws) (execState (handle e) w).
Proof.
  unfold QRScanner.step. rewrite !execState_bind.
  change (evalState read (execState (handle e) w)) with (ctl (execState (handle e) w)).
  change (execState read (execState (handle e) w)) with (execState (handle e) w).
  destruct (cancelled (ctl (execState (handle e) w))); reflexivity.
Qed.

(** X19. The selected device id is changed only by the arrival (or failure)
    of the mount effect's device list and by the user's choice, the device
    list only by the arrival (or failure) of a list; no start, stop, error,
    result or automatic start touches them. *)
Theorem selection_and_list_frame (e : Event) (w : World) :
  (if selects e then True
   else selectedDeviceId (ctl (execState (step e) w)) = selectedDeviceId (ctl w))
  /\ (if lists e then True
      else devices (ctl (execState (step e) w)) = devices (ctl w)).
Proof.
  destruct (handle_frame e w) as [Hsel Hlist].
  destruct (autoStartEffect_frame (execState (handle e) w)) as [Asel Alist].
  rewrite step_exec.
  destruct (cancelled (ctl (execState (handle e) w))).
  - split; assumption.
  - rewrite Asel, Alist. split; assumption.
Qed.

(** X20. On a component reached from the mount that has its video element
    and is not scanning, pressing the toggle starts a scan and pressing it
    again stops it: afterwards nothing is scanning, no service is referenced
    and no session is open. *)
Theorem toggle_twice_releases (evs : list Event) :
  videoRef (ctl (run evs initial)) = true ->
  isScanning (ctl (run evs initial)) = false ->
  ScannerService_throws (nextService (run evs initial)) = None ->
  isScanning (ctl (execState handleToggleScan (run evs initial))) = true
  /\ isScanning
       (ctl (execState handleToggleScan (execState handleToggleScan (run evs initial))))
     = false
  /\ scannerServiceRef
       (ctl (execState handleToggleScan (execState handleToggleScan (run evs initial))))
     = None
  /\ openSessions
       (trace (execState handleToggleScan (execState handleToggleScan (run evs initial))))
     = [].
Proof.
  pose proof (run_consistent evs initial initial_consistent) as Hw.
  generalize dependent (run evs initial). intros w Hw Hvideo Hscan Hnew.
  pose proof (handle_consistent ToggleScan w Hw) as Hw1.
  change (execState (handle ToggleScan) w) with (execState handleToggleScan w) in Hw1.
  assert (Hfirst : isScanning (ctl (execState handleToggleScan w)) = true).
  { destruct (handleStartScan_proceeds None w Hvideo Hscan) as (logs & _ & Hrun).
    rewrite Hnew in Hrun.
    rewrite handleToggleScan_exec, Hscan. unfold execState. rewrite Hrun. reflexivity. }
  split; [exact Hfirst|].
  remember (execState handleToggleScan w) as w1 eqn:Ew1.
  assert (Hsecond : execState handleToggleScan w1 = execState handleStopScan w1)
    by (rewrite handleToggleScan_exec, Hfirst; reflexivity).
  rewrite Hsecond.
  destruct (handleStopScan_stops w1) as [Href Hstop].
  pose proof (handle_consistent StopScan w1 Hw1) as [_ Hopen].
  change (execState (handle StopScan) w1) with (execState handleStopScan w1) in Hopen.
  rewrite Href in Hopen. repeat split; assumption.
Qed.

(** ** An empty device list *)

Local Abbreviation runRendered :=
  (QRScanner.runRendered ScannerService_throws getUserMedia_defined).

Lemma handle_idleWhileEmpty (e : Event) (w : World) :
  enabled (ctl w) e = true ->
  idleWhileEmpty w = true ->
  idleWhileEmpty (execState (handle e) w) = true.
Proof.
  intros He H.
  assert (Hcases :
            (exists d ds, devices (ctl w) = d :: ds /\ isLoadingCameras (ctl w) = false)
            \/ (nextService w = 0 /\ isScanning (ctl w) = false
                /\ scannerServiceRef (ctl w) = None
                /\ existsb isServiceEffect (trace w) = false)).
  { unfold idleWhileEmpty, neverStarted in H. world w. simpl in *.
    destruct devs as [|d ds], loading; simpl in H; eauto;
      right; destruct next, scanning, ref, (existsb isServiceEffect tr);
      try discriminate H; auto. }
  clear H. unfold idleWhileEmpty, neverStarted, enabled, selectDisabled, toggleDisabled in *.
  world w. simpl in *.
  destruct Hcases as [(d & ds & -> & ->) | (-> & -> & -> & Htr)].
  - destruct e; simpl in He; try discriminate He; clear He; branch;
      try reflexivity;
      match goal with
      | H : existsb hasLabel ?l = true |- _ => destruct l; [discriminate H | reflexivity]
      end.
  - destruct e; simpl in He; try discriminate He;
      try (destruct loading, devs; discriminate He);
      try (destruct loading; [discriminate He|]; destruct devs; [discriminate He|]);
      clear He; branch; repeat rewrite existsb_app; rewrite ?Htr; simpl;
      rewrite ?Bool.orb_true_r; reflexivity.
Qed.

Lemma autoStartEffect_idleWhileEmpty (w : World) :
  idleWhileEmpty w = true ->
  idleWhileEmpty (execState (autoStartEffect ScannerService_throws) w) = true.
Proof.
  unfold idleWhileEmpty, neverStarted.
  world w. simpl. intros H.
  branch; repeat rewrite existsb_app; simpl;
    try reflexivity; try discriminate; try assumption.
Qed.

Lemma runRendered_idleWhileEmpty (evs : list Event) (w : World) :
  idleWhileEmpty w = true -> idleWhileEmpty (runRendered evs w) = true.
Proof.
  revert w. induction evs as [|e evs IH]; intros w Hw; simpl; [exact Hw|].
  apply IH. destruct (enabled (ctl w) e) eqn:He; [|exact Hw].
  rewrite step_exec.
  pose proof (handle_idleWhileEmpty e w He Hw) as Hh.
  destruct (cancelled (ctl (execState (handle e) w))); [exact Hh|].
  apply autoStartEffect_idleWhileEmpty, Hh.
Qed.

Lemma openSessions_untouched (tr : list Effect) :
  existsb isServiceEffect tr = false -> openSessions tr = [].
Proof.
  unfold openSessions. generalize (@nil ServiceId) as open.
  induction tr as [|e tr IH]; intros open H; simpl in *; [reflexivity|].
  apply Bool.orb_false_iff in H. destruct H as [He Htr].
  rewrite (IH _ Htr). destruct e; simpl in *; try discriminate; reflexivity.
Qed.


End ControllerProperties.


Import QRScanner Spec Runs.


(** C6, counterexample. On the idle component a scan is started and stopped
    before its [start()] resolves.  The start then resumes: it calls nothing
    on the scanner service (its two effects are a log line and the request
    for the device list), and its refresh, which finds a label, replaces the
    device list of the stopped component. *)
Lemma stale_refresh_not_discarded :
  isScanning (ctl staleStopped) = false
  /\ devices (ctl staleStopped) = [cam1; cam2]
  /\ devices (ctl staleResumed) = [cam1_labelled; cam2]
  /\ skipn (length (trace staleStopped)) (trace staleResumed)
     = [Log "Client" INFO "QRScanner" "Scanner started successfully via start()." None;
        ListDevices]
  /\ ~ discardsStaleStart noThrow.
Proof.
  repeat split; try (vm_compute; reflexivity).
  intros H.
  specialize (H idle None [cam1_labelled; cam2]).
  apply (f_equal devices) in H.
  vm_compute in H. discriminate.
Qed.

(** The specification's example for the auto-start: two devices, the
    auto-start, a later list of three devices, no second auto-start. *)
Example auto_start_once_example :
  autoStarts noThrow true
    [Mount; PrimeResolved; ListResolved [cam1; cam2]; StartResolved;
     RefreshResolved [cam1_labelled; cam2; mkDevice "cam3" "Rear camera"]; StopScan;
     ListResolved [cam1_labelled; cam2; mkDevice "cam3" "Rear camera"]]
    initial = 1.
Proof. reflexivity. Qed.

(** ** The theorems at concrete inputs *)

Lemma single_session_witness :
  (videoRef (ctl scanning) = true /\ isScanning (ctl scanning) = true)
  /\ (videoRef (ctl idle) = true /\ isScanning (ctl idle) = false)
  /\ length (openSessions
               (firstn 20
                  (trace (run noThrow true
                            [Mount; PrimeResolved; ListResolved [cam1; cam2]; StopScan;
                             StartScan None] initial))))
     <= 1
  /\ evalState (handleStartScan noThrow (Some "cam2")) scanning = AlreadyScanning
  /\ evalState (handleStartScan noThrow None) idle = StartPending 1.
Proof.
  assert (Hscanning : videoRef (ctl scanning) = true /\ isScanning (ctl scanning) = true)
    by (vm_compute; split; reflexivity).
  assert (Hidle : videoRef (ctl idle) = true /\ isScanning (ctl idle) = false)
    by (vm_compute; split; reflexivity).
  split; [exact Hscanning|]. split; [exact Hidle|].
  destruct (single_session noThrow true
              [Mount; PrimeResolved; ListResolved [cam1; cam2]; StopScan; StartScan None]
              20 scanning (Some "cam2")) as (Hone & Hnoop & _).
  destruct (single_session noThrow true [] 0 idle None) as (_ & _ & Hstart).
  split; [exact Hone|].
  destruct (Hnoop (proj1 Hscanning) (proj2 Hscanning)) as (notice & _ & Hrun).
  destruct (Hstart (proj1 Hidle) (proj2 Hidle)) as (logs & _ & Hrun').
  unfold evalState. rewrite Hrun, Hrun'. split; reflexivity.
Defined.

Lemma handleStopScan_idempotent_witness :
  (scannerServiceRef (ctl idle) = None /\ isScanning (ctl idle) = false)
  /\ runState handleStopScan idle
     = (tt, mkWorld (ctl idle) (nextService idle)
              (trace idle ++ [Log "Client" INFO "QRScanner" "Stop scan button clicked." None])).
Proof.
  split; [split; reflexivity|].
  exact (proj1 (proj2 (handleStopScan_idempotent idle)) eq_refl eq_refl).
Defined.


Lemma stale_start_stays_stopped_witness :
  (videoRef (ctl idle) = true /\ isScanning (ctl idle) = false
   /\ noThrow (nextService idle) = None)
  /\ isScanning
       (ctl (execState startResolved
               (execState handleStopScan (execState (handleStartScan noThrow None) idle))))
     = false
  /\ scannerServiceRef
       (ctl (execState startResolved
               (execState (handle noThrow true Unmount)
                  (execState (handleStartScan noThrow None) idle))))
     = None.
Proof.
  split; [repeat split; reflexivity|].
  pose proof (stale_start_stays_stopped noThrow true idle None "NotReadableError"
                eq_refl eq_refl eq_refl) as H.
  cbv zeta in H.
  destruct H as (_ & (Hstopped & _) & (Hresumed & _) & _ & (Hunmounted & _)
                 & (Hresumed' & _) & _).
  split.
  - rewrite Hresumed. exact Hstopped.
  - rewrite Hresumed'. exact Hunmounted.
Defined.


Lemma no_device_branch_unreachable_witness :
  (devices (ctl noCamera) = [] /\ selectedDeviceId (ctl noCamera) = ""
   /\ videoRef (ctl noCamera) = true /\ isScanning (ctl noCamera) = false
   /\ noThrow (nextService noCamera) = None)
  /\ evalState (resolveDeviceId None) noCamera = js_string ""
  /\ evalState (handleStartScan noThrow None) noCamera = StartPending 0.
Proof.
  split; [repeat split; reflexivity|].
  destruct (no_device_branch_unreachable noThrow None noCamera) as (_ & _ & H).
  destruct (H eq_refl eq_refl) as (Hid & Hstart).
  split; [exact Hid|].
  exact (proj1 (Hstart eq_refl eq_refl eq_refl)).
Defined.

(** * Properties of the client identity *)

Section ClientIdProperties.

Import ClientId.

(** X1. With a session storage that can be read and written, the first call
    of [getClientId] stores the id it returns, and a later call of the same
    browsing session returns that same id and leaves the storage alone,
    whatever the clock and the random generator say by then.  The id is not
    the empty string. *)
Theorem getClientId_stable (first later : Platform) (b : Browser) :
  getItem_throws first = None ->
  setItem_throws first = None ->
  getItem_throws later = None ->
  exists id : string,
    id <> ""
    /\ fst (run (getClientId first) b) = inr id
    /\ item (snd (run (getClientId first) b)) = Some id
    /\ run (getClientId later) (snd (run (getClientId first) b))
       = (inr id, snd (run (getClientId first) b)).
Proof.
  destruct first as [now1 rnd1 g1 s1], later as [now2 rnd2 g2 s2], b as [stored errs].
  simpl. intros -> -> ->.
  unfold run, getClientId, getItem, setItem, generate. simpl.
  destruct stored as [[|a rest]|]; simpl;
    eexists; (split; [|split; [reflexivity|split; reflexivity]]); discriminate.
Qed.

(** X2. When the session storage cannot be written, [getClientId] still
    returns normally with a freshly generated id, writes one line to the
    console and stores nothing, so the next call generates another id.  A
    stored id that is not empty is returned as it is, whether or not the
    storage can be written.  Only a failure of [getItem] escapes the
    function. *)
Theorem getClientId_unwritable_storage (p : Platform) (b : Browser)
        (setError getError : string) :
  (getItem_throws p = None ->
   setItem_throws p = Some setError ->
   run (getClientId p) b
   = match item b with
     | Some (String a rest) => (inr (String a rest), b)
     | Some EmptyString | None =>
         (inr (generate p),
          mkBrowser (item b)
            (errors b ++ ["Session storage unavailable for client ID persistence."]))
     end)
  /\ (getItem_throws p = Some getError ->
      run (getClientId p) b = (inl getError, b)).
Proof.
  destruct p as [now1 rnd1 g1 s1], b as [stored errs]. simpl. split.
  - intros -> ->. unfold run, getClientId, getItem, setItem, generate. simpl.
    destruct stored as [[|a rest]|]; reflexivity.
  - intros ->. reflexivity.
Qed.

End ClientIdProperties.

Lemma getClientId_stable_witness :
  exists id : string,
    id <> ""
    /\ fst (ClientId.run
              (ClientId.getClientId (ClientId.mkPlatform "1700000000000" "k3j9x2" None None))
              (ClientId.mkBrowser None [])) = inr id
    /\ ClientId.item
         (snd (ClientId.run
                 (ClientId.getClientId (ClientId.mkPlatform "1700000000000" "k3j9x2" None None))
                 (ClientId.mkBrowser None []))) = Some id
    /\ ClientId.run
         (ClientId.getClientId
            (ClientId.mkPlatform "1700000099999" "zzzzzz" None (Some "QuotaExceededError")))
         (snd (ClientId.run
                 (ClientId.getClientId (ClientId.mkPlatform "1700000000000" "k3j9x2" None None))
                 (ClientId.mkBrowser None [])))
       = (inr id,
          snd (ClientId.run
                 (ClientId.getClientId (ClientId.mkPlatform "1700000000000" "k3j9x2" None None))
                 (ClientId.mkBrowser None []))).
Proof.
  exact (getClientId_stable
           (ClientId.mkPlatform "1700000000000" "k3j9x2" None None)
           (ClientId.mkPlatform "1700000099999" "zzzzzz" None (Some "QuotaExceededError"))
           (ClientId.mkBrowser None []) eq_refl eq_refl eq_refl).
Defined.

Lemma getClientId_unwritable_storage_witness :
  ClientId.run
    (ClientId.getClientId
       (ClientId.mkPlatform "1700000000000" "k3j9x2" None (Some "SecurityError")))
    (ClientId.mkBrowser None [])
  = (inr "client_1700000000000_k3j9x2",
     ClientId.mkBrowser None ["Session storage unavailable for client ID persistence."])
  /\ ClientId.run
       (ClientId.getClientId
          (ClientId.mkPlatform "1700000000000" "k3j9x2" (Some "SecurityError") None))
       (ClientId.mkBrowser None [])
     = (inl "SecurityError", ClientId.mkBrowser None []).
Proof.
  split.
  - exact (proj1 (getClientId_unwritable_storage
                    (ClientId.mkPlatform "1700000000000" "k3j9x2" None (Some "SecurityError"))
                    (ClientId.mkBrowser None []) "SecurityError" "x") eq_refl eq_refl).
  - exact (proj2 (getClientId_unwritable_storage
                    (ClientId.mkPlatform "1700000000000" "k3j9x2" (Some "SecurityError") None)
                    (ClientId.mkBrowser None []) "x" "SecurityError") eq_refl).
Defined.

(** * Properties of the development server *)

Section LogEndpoint.

Import DevServer.

Variable JSON_parse : string -> string + Json.
Variable now : string.

Local Abbreviation handleLog := (DevServer.handleLog JSON_parse now).
Local Abbreviation finalMessage := (DevServer.finalMessage now).

(** The run of the [/log] middleware, by cases. *)
Lemma run_handleLog (method body : string) (tr : list ServerEffect) :
  run (handleLog method body) tr
  = (inr tt,
     (tr ++ if String.eqb method "POST" then
              match JSON_parse body with
              | inl _ | inr JNull => invalidJSON
              | inr logPayload =>
                  match finalMessage logPayload with
                  | Some line =>
                      [ConsoleLog line; WriteHead 200 "application/json"; End_ StatusLogged]
                  | None => invalidJSON
                  end
              end
            else [Next])%list).
Proof.
  unfold run, DevServer.handleLog, parse, destructure, rendered, respond, throw, emit,
    invalidJSON.
  destruct (String.eqb method "POST"); [|reflexivity].
  generalize (DevServer.finalMessage now). intros line.
  destruct (JSON_parse body) as [err|logPayload];
    [cbn; repeat rewrite <- app_assoc; reflexivity|].
  destruct logPayload; cbn;
    try match goal with
        | |- context [line ?v] => destruct (line v)
        end;
    cbn; repeat rewrite <- app_assoc; reflexivity.
Qed.

Lemma orDefault_none (x : option Json) (d : string) :
  orDefault x d = None ->
  exists v : Json, x = Some v /\ truthy v = true /\ toString v = None.
Proof.
  unfold orDefault. destruct x as [v|]; [|discriminate].
  destruct (truthy v) eqn:Ht; [|discriminate].
  intros Hs. exists v. auto.
Qed.

(** X3. The [/log] middleware never throws.  A request that is not a POST is
    passed on and nothing is answered.  A POST is answered exactly once: with
    200 and [logged], after the line was printed, when the body parses to
    anything but [null] and the line can be made; with 400 and
    [Invalid JSON], after an error line and with no line printed, when the
    body does not parse, parses to [null], or one of the six fields cannot be
    rendered.  The line cannot be made exactly when one of the six fields
    holds a truthy value whose rendering throws: an object with a property
    [toString] of its own, or an array with such an object in it. *)
Theorem handleLog_answers_once (method body : string) (tr : list ServerEffect) :
  run (handleLog method body) tr
  = (inr tt,
     (tr ++ if String.eqb method "POST" then
              match JSON_parse body with
              | inl _ | inr JNull => invalidJSON
              | inr logPayload =>
                  match finalMessage logPayload with
                  | Some line =>
                      [ConsoleLog line; WriteHead 200 "application/json"; End_ StatusLogged]
                  | None => invalidJSON
                  end
              end
            else [Next])%list)
  /\ (forall logPayload : Json,
        finalMessage logPayload = None
        <-> exists (name : string) (v : Json),
              In name lineFields /\ property logPayload name = Some v
              /\ truthy v = true /\ toString v = None)
  /\ (forall fields : list (string * Json),
        toString (JObject fields) = None <-> lookup "toString" fields <> None)
  /\ (forall v : Json,
        match v with JArray _ | JObject _ => True | _ => toString v <> None end).
Proof.
  split; [apply run_handleLog|]. split; [|split].
  - intros logPayload. unfold DevServer.finalMessage, lineFields. split.
    + intros Hnone.
      repeat match type of Hnone with
             | andThen (orDefault (property logPayload ?name) ?d) _ = None =>
                 let Hfield := fresh "Hfield" in
                 destruct (orDefault (property logPayload name) d) eqn:Hfield;
                   [simpl andThen in Hnone
                   |destruct (orDefault_none _ _ Hfield) as (v & Hv & Ht & Hs);
                    exists name, v; simpl; intuition auto]
             end.
      discriminate.
    + intros (name & v & Hin & Hv & Ht & Hs).
      assert (Hfield : orDefault (property logPayload name)
                         (if String.eqb name "clientId" then "UNKNOWN"
                          else if String.eqb name "level" then "INFO"
                          else if String.eqb name "source" then "Unknown"
                          else if String.eqb name "component" then "Unknown" else "")
                       = None)
        by (unfold orDefault; rewrite Hv, Ht; exact Hs).
      simpl in Hin.
      destruct Hin as [<-|[<-|[<-|[<-|[<-|[<-|[]]]]]]]; simpl in Hfield;
        unfold andThen;
        repeat match goal with
               | |- context [match orDefault ?x ?d with _ => _ end] =>
                   first [rewrite Hfield | destruct (orDefault x d)]
               end;
        reflexivity.
  - intros fields. simpl. destruct (lookup "toString" fields); split; congruence.
  - intros [| [] | | | |]; simpl; solve [exact I | discriminate].
Qed.

(** X4. The line the server prints for a record sent by [remoteLog] is the
    line [remoteLog] wrote to the client's console, with the server's
    timestamp in place of the client's, provided the client id, the source
    and the component are not empty (an empty one is replaced by [UNKNOWN] or
    [Unknown]).  An empty message or data string stays empty. *)
Theorem server_line_is_client_line (CLIENT_ID source component message dataString : string)
        (level : LogLevel) (body : string) (tr : list ServerEffect) :
  CLIENT_ID <> "" ->
  source <> "" ->
  component <> "" ->
  JSON_parse body
  = inr (payloadObject
           (RemoteLog.mkLogPayload CLIENT_ID source (LogLevel_toString level) component
                                   message dataString)) ->
  run (handleLog "POST" body) tr
  = (inr tt,
     (tr ++ [ConsoleLog
               (RemoteLog.formatMessage now CLIENT_ID source level component message
                                        dataString);
             WriteHead 200 "application/json";
             End_ StatusLogged])%list).
Proof.
  intros Hid Hsource Hcomponent Hparse.
  rewrite run_handleLog, Hparse.
  unfold DevServer.finalMessage, RemoteLog.formatMessage, payloadObject.
  destruct CLIENT_ID; [congruence|]. destruct source; [congruence|].
  destruct component; [congruence|].
  destruct message, dataString, level; reflexivity.
Qed.

End LogEndpoint.

(** A record whose client id cannot be rendered is answered with 400 and no
    line is printed. *)
Example handleLog_unrenderable_clientId :
  DevServer.run
    (DevServer.handleLog (fun _ => inr Runs.unrenderableRecord) "2024-01-01T00:00:01.000Z"
       "POST" "{...}") []
  = (inr tt,
     [DevServer.ConsoleError "[Server Log] Error parsing log data:";
      DevServer.WriteHead 400 "application/json";
      DevServer.End_ (DevServer.StatusError "Invalid JSON")]).
Proof. vm_compute. reflexivity. Qed.

Lemma server_line_is_client_line_witness :
  DevServer.run
    (DevServer.handleLog
       (fun _ =>
          inr (DevServer.payloadObject
                 (RemoteLog.mkLogPayload "client_1" "Client" "WARN" "QRScanner"
                    "Start scan called while already scanning." "")))
       "2024-01-01T00:00:01.000Z" "POST" "{...}") []
  = (inr tt,
     [DevServer.ConsoleLog
        (RemoteLog.formatMessage "2024-01-01T00:00:01.000Z" "client_1" "Client" WARN
           "QRScanner" "Start scan called while already scanning." "");
      DevServer.WriteHead 200 "application/json";
      DevServer.End_ DevServer.StatusLogged]).
Proof.
  apply (server_line_is_client_line
           (fun _ =>
              inr (DevServer.payloadObject
                     (RemoteLog.mkLogPayload "client_1" "Client" "WARN" "QRScanner"
                        "Start scan called while already scanning." "")))
           "2024-01-01T00:00:01.000Z" "client_1" "Client" "QRScanner"
           "Start scan called while already scanning." "" WARN "{...}" []);
    solve [discriminate | reflexivity].
Defined.

(** ** Strings *)

Section StringFacts.

Import JsString.

Lemma forallChars_app (p : ascii -> bool) (a b : string) :
  forallChars p (a ++ b) = (forallChars p a && forallChars p b)%bool.
Proof.
  induction a as [|c a IH]; simpl; [reflexivity|].
  rewrite IH, andb_assoc. reflexivity.
Qed.

Lemma forallChars_impl (p q : ascii -> bool) (s : string) :
  (forall c, p c = true -> q c = true) ->
  forallChars p s = true -> forallChars q s = true.
Proof.
  intros Hpq. induction s as [|c s IH]; simpl; [reflexivity|].
  intros H. apply andb_true_iff in H. destruct H as [Hc Hs].
  rewrite (Hpq c Hc), (IH Hs). reflexivity.
Qed.

Lemma replaceAll_length (p : ascii -> bool) (r : ascii) (s : string) :
  String.length (replaceAll p r s) = String.length s.
Proof.
  induction s as [|c s IH]; simpl; [reflexivity|]. rewrite IH. reflexivity.
Qed.

Lemma replaceAll_forallChars (p q : ascii -> bool) (r : ascii) (s : string) :
  q r = true ->
  (forall c, p c = false -> q c = true) ->
  forallChars q (replaceAll p r s) = true.
Proof.
  intros Hr Hq. induction s as [|c s IH]; simpl; [reflexivity|].
  rewrite IH, andb_true_r. destruct (p c) eqn:Hc; [exact Hr | exact (Hq c Hc)].
Qed.

Lemma replaceAll_keeps (p q : ascii -> bool) (r : ascii) (s : string) :
  q r = true ->
  forallChars q s = true ->
  forallChars q (replaceAll p r s) = true.
Proof.
  intros Hr. induction s as [|c s IH]; simpl; [reflexivity|].
  intros H. apply andb_true_iff in H. destruct H as [Hc Hs].
  rewrite (IH Hs), andb_true_r. destruct (p c); assumption.
Qed.

Lemma replaceAll_fixed (p : ascii -> bool) (r : ascii) (s : string) :
  forallChars (fun c => negb (p c)) s = true -> replaceAll p r s = s.
Proof.
  induction s as [|c s IH]; simpl; [reflexivity|].
  intros H. apply andb_true_iff in H. destruct H as [Hc Hs].
  rewrite (IH Hs). destruct (p c); [discriminate | reflexivity].
Qed.

Lemma split_whole (c : ascii) (s : string) :
  forallChars (fun a => negb (Ascii.eqb a c)) s = true -> split c s = [s].
Proof.
  induction s as [|a s IH]; simpl; [reflexivity|].
  intros H. apply andb_true_iff in H. destruct H as [Ha Hs].
  rewrite (IH Hs). destruct (Ascii.eqb a c); [discriminate | reflexivity].
Qed.

Lemma afterPrefix_app (p r : string) : afterPrefix p (p ++ r) = Some r.
Proof.
  induction p as [|a p IH]; simpl; [destruct r; reflexivity|].
  rewrite Ascii.eqb_refl. exact IH.
Qed.

Lemma afterPrefix_sound (p s r : string) : afterPrefix p s = Some r -> s = p ++ r.
Proof.
  revert s. induction p as [|a p IH]; intros s; simpl.
  - destruct s; intros H; injection H as <-; reflexivity.
  - destruct s as [|b s]; [discriminate|].
    destruct (Ascii.eqb_spec a b) as [<-|]; [|discriminate].
    intros H. rewrite (IH s H). reflexivity.
Qed.

Lemma take_drop (n : nat) (s : string) : take n s ++ drop n s = s.
Proof.
  revert s. induction n as [|n IH]; intros [|a s]; simpl; try reflexivity.
  rewrite IH. reflexivity.
Qed.

Lemma take_app (a b : string) : take (String.length a) (a ++ b) = a.
Proof.
  induction a as [|c a IH]; simpl; [destruct b; reflexivity|]. rewrite IH. reflexivity.
Qed.

Lemma drop_app (a b : string) : drop (String.length a) (a ++ b) = b.
Proof.
  induction a as [|c a IH]; simpl; [destruct b; reflexivity | exact IH].
Qed.

Lemma drop_app_next (a b : string) (c : ascii) :
  drop (S (String.length a)) (a ++ String c b) = b.
Proof.
  induction a as [|x a IH]; simpl; [destruct b; reflexivity | exact IH].
Qed.

Lemma length_app (a b : string) :
  String.length (a ++ b) = String.length a + String.length b.
Proof.
  induction a as [|c a IH]; simpl; [reflexivity|]. rewrite IH. reflexivity.
Qed.

Lemma beforeSuffix_app (q x : string) : beforeSuffix q (x ++ q) = Some x.
Proof.
  unfold beforeSuffix. rewrite length_app.
  replace (String.length x + String.length q - String.length q) with (String.length x) by lia.
  rewrite drop_app, take_app, String.eqb_refl.
  replace (Nat.leb (String.length q) (String.length x + String.length q)) with true
    by (symmetry; apply Nat.leb_le; lia).
  reflexivity.
Qed.

Lemma beforeSuffix_sound (q s x : string) : beforeSuffix q s = Some x -> s = x ++ q.
Proof.
  unfold beforeSuffix.
  destruct (Nat.leb (String.length q) (String.length s)); simpl; [|discriminate].
  destruct (String.eqb_spec (drop (String.length s - String.length q) s) q) as [Hq|];
    [|discriminate].
  intros H. injection H as <-.
  pose proof (take_drop (String.length s - String.length q) s) as Hs.
  rewrite Hq in Hs. symmetry. exact Hs.
Qed.

Lemma indexOf_app (c : ascii) (a b : string) :
  forallChars (fun x => negb (Ascii.eqb x c)) a = true ->
  indexOf c (a ++ String c b) = Some (String.length a).
Proof.
  induction a as [|x a IH]; simpl.
  - rewrite Ascii.eqb_refl. reflexivity.
  - intros H. apply andb_true_iff in H. destruct H as [Hx Ha].
    rewrite (IH Ha). destruct (Ascii.eqb x c); [discriminate | reflexivity].
Qed.

End StringFacts.

(** ** File names and data URLs *)

Section UploadNames.

Import JsString DevServer.

Lemma safe_not_separator (c : ascii) :
  isUnsafe c = false -> negb (isSeparator c) = true.
Proof.
  destruct c as [[] [] [] [] [] [] [] []]; vm_compute; congruence.
Qed.

Lemma mime_not_separator (c : ascii) :
  isMimeChar c = true -> negb (isSeparator c) = true.
Proof.
  destruct c as [[] [] [] [] [] [] [] []]; vm_compute; congruence.
Qed.

Lemma mime_not_slash (c : ascii) :
  isMimeChar c = true -> negb (Ascii.eqb c "/"%char) = true.
Proof.
  destruct c as [[] [] [] [] [] [] [] []]; vm_compute; congruence.
Qed.

Lemma mime_not_comma (c : ascii) :
  isMimeChar c = true -> negb (Ascii.eqb c ","%char) = true.
Proof.
  destruct c as [[] [] [] [] [] [] [] []]; vm_compute; congruence.
Qed.

Lemma sanitize_chars (s : string) :
  forallChars (fun c => negb (isUnsafe c)) (sanitize s) = true.
Proof.
  apply replaceAll_forallChars; [reflexivity|]. intros c ->. reflexivity.
Qed.

Lemma sanitize_noSeparator (s : string) : noSeparator (sanitize s) = true.
Proof.
  unfold noSeparator. generalize (sanitize_chars s). apply forallChars_impl.
  intros c Hc. apply safe_not_separator. destruct (isUnsafe c); [discriminate|reflexivity].
Qed.

(** X5. [sanitize] keeps the length of a string and leaves only letters,
    digits, [_] and [-] in it, so no path separator; sanitizing twice is
    sanitizing once. *)
Theorem sanitize_safe (s : string) :
  forallChars (fun c => negb (isUnsafe c)) (sanitize s) = true
  /\ noSeparator (sanitize s) = true
  /\ String.length (sanitize s) = String.length s
  /\ sanitize (sanitize s) = sanitize s.
Proof.
  split; [apply sanitize_chars|]. split; [apply sanitize_noSeparator|]. split.
  - apply replaceAll_length.
  - apply replaceAll_fixed. apply sanitize_chars.
Qed.

Lemma mimeMatch_group (header group : string) :
  mimeMatch header = Some group ->
  exists subtype,
    header = "data:image/" ++ subtype ++ ";base64"
    /\ group = "image/" ++ subtype
    /\ subtype <> ""
    /\ forallChars isMimeChar subtype = true.
Proof.
  unfold mimeMatch.
  destruct (afterPrefix "data:" header) as [rest|] eqn:Hrest; [|discriminate].
  destruct (beforeSuffix ";base64" rest) as [g|] eqn:Hg; [|discriminate].
  destruct (afterPrefix "image/" g) as [subtype|] eqn:Hsub; [|discriminate].
  destruct (isEmpty subtype) eqn:Hempty; simpl; [discriminate|].
  destruct (forallChars isMimeChar subtype) eqn:Hchars; [|discriminate].
  intros H. injection H as <-.
  apply afterPrefix_sound in Hrest, Hsub. apply beforeSuffix_sound in Hg.
  exists subtype. subst.
  split; [reflexivity|]. split; [reflexivity|]. split; [|exact Hchars].
  destruct subtype; [discriminate | congruence].
Qed.

Lemma mimeMatch_app (subtype : string) :
  subtype <> "" ->
  forallChars isMimeChar subtype = true ->
  mimeMatch ("data:image/" ++ subtype ++ ";base64") = Some ("image/" ++ subtype).
Proof.
  intros Hne Hchars. unfold mimeMatch.
  change ("data:image/" ++ subtype ++ ";base64")
    with ("data:" ++ (("image/" ++ subtype) ++ ";base64")).
  rewrite afterPrefix_app, beforeSuffix_app, afterPrefix_app, Hchars.
  destruct subtype; [congruence | reflexivity].
Qed.

Lemma extensionOf_subtype (subtype : string) :
  subtype <> "" ->
  forallChars isMimeChar subtype = true ->
  extensionOf ("image/" ++ subtype)
  = if String.eqb subtype "jpeg" then "jpg" else subtype.
Proof.
  intros Hne Hchars. unfold extensionOf.
  assert (Hsplit : split "/"%char subtype = [subtype]).
  { apply split_whole. revert Hchars. apply forallChars_impl, mime_not_slash. }
  simpl. rewrite Hsplit. simpl.
  destruct (String.eqb subtype "jpeg"); [reflexivity|].
  destruct subtype; [congruence | reflexivity].
Qed.

Lemma extensionOf_mimeOf_safe (dataURL : string) :
  noSeparator (extensionOf (mimeOf dataURL)) = true.
Proof.
  unfold mimeOf.
  destruct (mimeMatch (headerOf dataURL)) as [group|] eqn:Hmatch; [|reflexivity].
  destruct (mimeMatch_group _ _ Hmatch) as (subtype & _ & -> & Hne & Hchars).
  rewrite (extensionOf_subtype subtype Hne Hchars).
  destruct (String.eqb subtype "jpeg"); [reflexivity|].
  unfold noSeparator. revert Hchars. apply forallChars_impl, mime_not_separator.
Qed.

(** X6. A data URL [data:image/<subtype>;base64,<payload>], the subtype made
    of letters, digits, [.], [+] and [-], passes the check of the upload
    handler and is taken apart into the mime type [image/<subtype>] and the
    payload; the file extension is the subtype, and [jpg] for [jpeg]. *)
Theorem dataURL_decoded (subtype payload : string) :
  subtype <> "" ->
  forallChars isMimeChar subtype = true ->
  startsWith "data:image/" ("data:image/" ++ subtype ++ ";base64," ++ payload) = true
  /\ headerOf ("data:image/" ++ subtype ++ ";base64," ++ payload)
     = "data:image/" ++ subtype ++ ";base64"
  /\ base64Of ("data:image/" ++ subtype ++ ";base64," ++ payload) = payload
  /\ mimeOf ("data:image/" ++ subtype ++ ";base64," ++ payload) = "image/" ++ subtype
  /\ extensionOf (mimeOf ("data:image/" ++ subtype ++ ";base64," ++ payload))
     = if String.eqb subtype "jpeg" then "jpg" else subtype.
Proof.
  intros Hne Hchars.
  assert (Hurl : "data:image/" ++ subtype ++ ";base64," ++ payload
                 = ("data:image/" ++ subtype ++ ";base64") ++ String "," payload).
  { simpl. do 11 f_equal. induction subtype as [|c t IH]; simpl; [reflexivity|].
    f_equal. destruct t as [|c' t'] eqn:Ht.
    - reflexivity.
    - apply IH; [discriminate|]. simpl in Hchars. apply andb_true_iff in Hchars.
      apply Hchars. }
  assert (Hcomma : forallChars (fun x => negb (Ascii.eqb x ","%char))
                     ("data:image/" ++ subtype ++ ";base64") = true).
  { change ("data:image/" ++ subtype ++ ";base64")
      with ("data:image/" ++ (subtype ++ ";base64")).
    rewrite !forallChars_app.
    rewrite (forallChars_impl _ _ subtype mime_not_comma Hchars). reflexivity. }
  assert (Hheader : headerOf ("data:image/" ++ subtype ++ ";base64," ++ payload)
                    = "data:image/" ++ subtype ++ ";base64").
  { unfold headerOf. rewrite Hurl, (indexOf_app _ _ _ Hcomma). apply take_app. }
  assert (Hmime : mimeOf ("data:image/" ++ subtype ++ ";base64," ++ payload)
                  = "image/" ++ subtype).
  { unfold mimeOf. rewrite Hheader, (mimeMatch_app subtype Hne Hchars). reflexivity. }
  split; [reflexivity|]. split; [exact Hheader|]. split; [|split; [exact Hmime|]].
  - unfold base64Of. rewrite Hurl, (indexOf_app _ _ _ Hcomma).
    apply drop_app_next.
  - rewrite Hmime. apply extensionOf_subtype; assumption.
Qed.

End UploadNames.

Lemma dataURL_decoded_witness :
  DevServer.mimeOf "data:image/svg+xml;base64,PHN2Zz48L3N2Zz4=" = "image/svg+xml"
  /\ DevServer.base64Of "data:image/svg+xml;base64,PHN2Zz48L3N2Zz4=" = "PHN2Zz48L3N2Zz4="
  /\ DevServer.extensionOf (DevServer.mimeOf "data:image/svg+xml;base64,PHN2Zz48L3N2Zz4=")
     = "svg+xml".
Proof.
  destruct (dataURL_decoded "svg+xml" "PHN2Zz48L3N2Zz4=") as (_ & _ & Hpayload & Hmime & Hext);
    [discriminate | reflexivity |].
  split; [exact Hmime|]. split; [exact Hpayload | exact Hext].
Defined.

(** ** The upload endpoint *)

Section UploadEndpoint.

Import JsString DevServer.

Variable JSON_parse : string -> string + Json.
Variable now : string.
Variable OUTPUT_DIR : string.
Variable outputDirExists : bool.
Variable mkdirSync_throws : option string.
Variable writeFileSync_throws : string -> option string.

Local Abbreviation handleUpload :=
  (DevServer.handleUpload JSON_parse now OUTPUT_DIR outputDirExists mkdirSync_throws
     writeFileSync_throws).
Local Abbreviation baseNameOf := (DevServer.baseNameOf now).
Local Abbreviation timestampOf := (DevServer.timestampOf now).
Local Abbreviation pathJoin := (DevServer.pathJoin OUTPUT_DIR).

Local Arguments startsWith : simpl never.
Local Arguments isEmpty : simpl never.
Local Arguments truthy : simpl never.
Local Arguments lookup : simpl never.
Local Arguments String.eqb : simpl never.
Local Arguments String.append : simpl never.
Local Arguments DevServer.filenameOf : simpl never.
Local Arguments DevServer.baseNameOf : simpl never.
Local Arguments DevServer.pathJoin : simpl never.
Local Arguments DevServer.timestampOf : simpl never.
Local Arguments base64Of : simpl never.
Local Arguments mimeOf : simpl never.

(** Case analysis on whatever the handler branches on. *)
Ltac upload_cases :=
  unfold run, DevServer.handleUpload, saveScreenshot, writeFileSync, parse, destructure,
    rendered, respond, throw, emit;
  repeat (cbn;
          match goal with
          | |- context [match baseNameOf ?r with _ => _ end] =>
              destruct (baseNameOf r) eqn:?
          | |- context [match JSON_parse ?b with _ => _ end] =>
              destruct (JSON_parse b) as [?|[]] eqn:?
          | |- context [match lookup "dataURL" ?f with _ => _ end] =>
              destruct (lookup "dataURL" f) as [[]|] eqn:?
          | |- context [match lookup "note" ?f with _ => _ end] =>
              destruct (lookup "note" f) as [?|] eqn:?
          | |- context [match writeFileSync_throws ?p with _ => _ end] =>
              destruct (writeFileSync_throws p) eqn:?
          | |- context [if truthy ?v then _ else _] => destruct (truthy v) eqn:?
          | |- context [if startsWith ?p ?u then _ else _] =>
              destruct (startsWith p u) eqn:?
          | |- context [if isEmpty ?b then _ else _] => destruct (isEmpty b) eqn:?
          | |- context [negb (String.eqb ?m "POST")] => destruct (String.eqb m "POST") eqn:?
          | |- context [match mkdirSync_throws with _ => _ end] => destruct mkdirSync_throws
          | |- context [negb outputDirExists] => destruct outputDirExists
          end);
  cbn.

(** X7. The upload middleware never throws.  A request that is not a POST is
    passed on.  A POST is answered exactly once, whatever the body is and
    whether or not the directory can be made and the files written, and the
    answer is the last thing the handler does. *)
Theorem handleUpload_answers_once (method body : string) (tr : list ServerEffect) :
  exists effects : list ServerEffect,
    run (handleUpload method body) tr = (inr tt, (tr ++ effects)%list)
    /\ if String.eqb method "POST"
       then length (filter isWriteHead effects) = 1
            /\ length (filter isEnd effects) = 1
            /\ isEnd (last effects Next) = true
       else effects = [Next].
Proof.
  upload_cases; repeat rewrite <- app_assoc; cbn;
    eexists; (split; [reflexivity|]); cbn; repeat split; reflexivity.
Qed.

Local Abbreviation bodyJson := (DevServer.bodyJson JSON_parse).
Local Abbreviation saveScreenshot :=
  (DevServer.saveScreenshot now OUTPUT_DIR outputDirExists mkdirSync_throws
     writeFileSync_throws).

Lemma run_bind {A B : Type} (c : IO A) (f : A -> IO B) (tr : list ServerEffect) :
  run (bind c f) tr
  = match run c tr with
    | (inl e, tr') => (inl e, tr')
    | (inr a, tr') => run (f a) tr'
    end.
Proof.
  unfold run. simpl. destruct (runState (unEitherT c) tr) as [[e|a] tr']; reflexivity.
Qed.

Lemma run_catch {A : Type} (c : IO A) (h : string -> IO A) (tr : list ServerEffect) :
  run (catch c h) tr
  = match run c tr with
    | (inl e, tr') => run (h e) tr'
    | (inr a, tr') => (inr a, tr')
    end.
Proof.
  unfold run. simpl. destruct (runState (unEitherT c) tr) as [[e|a] tr']; reflexivity.
Qed.

(** A POST whose body parses to a request that is not [null]. *)
Lemma handleUpload_request (body : string) (request : Json) (tr : list ServerEffect) :
  bodyJson body = inr request ->
  request <> JNull ->
  run (handleUpload "POST" body) tr
  = match
      run (match acceptedDataURL request with
           | Some dataURL => saveScreenshot request dataURL
           | None =>
               respond 400 (StatusError "dataURL (data:image/*;base64,...) required")
           end) tr
    with
    | (inl _, tr') =>
        (inr tt,
         (tr' ++ [ConsoleError "[Upload Screenshot] Error:";
                  WriteHead 400 "application/json";
                  End_ (StatusError "Invalid request body")])%list)
    | (inr u, tr') => (inr u, tr')
    end.
Proof.
  intros Hbody Hrequest. unfold DevServer.handleUpload.
  change (negb (String.eqb "POST" "POST")) with false. cbv iota.
  rewrite run_catch, run_bind.
  assert (Hparsed : run (if isEmpty body then ret (JObject []) else parse JSON_parse body) tr
                    = (inr request, tr)).
  { unfold DevServer.bodyJson in Hbody. destruct (isEmpty body).
    - injection Hbody as <-. reflexivity.
    - unfold parse. rewrite Hbody. reflexivity. }
  rewrite Hparsed, run_bind.
  assert (Hdestructure : run (destructure request) tr = (inr request, tr))
    by (destruct request; [congruence | reflexivity ..]).
  rewrite Hdestructure.
  assert (Hbranch :
            match property request "dataURL" with
            | Some (JString dataURL) =>
                if startsWith "data:image/" dataURL then saveScreenshot request dataURL
                else respond 400 (StatusError "dataURL (data:image/*;base64,...) required")
            | _ => respond 400 (StatusError "dataURL (data:image/*;base64,...) required")
            end
            = match acceptedDataURL request with
              | Some dataURL => saveScreenshot request dataURL
              | None =>
                  respond 400 (StatusError "dataURL (data:image/*;base64,...) required")
              end).
  { unfold acceptedDataURL.
    destruct (property request "dataURL") as [[| | | dataURL | |]|]; try reflexivity.
    destruct (startsWith "data:image/" dataURL); reflexivity. }
  rewrite Hbranch. clear Hparsed Hdestructure Hbranch.
  match goal with
  | |- context [run ?c tr] => destruct (run c tr) as [[e|[]] tr']
  end; [|reflexivity].
  unfold run, respond, emit. cbn. repeat rewrite <- app_assoc. reflexivity.
Qed.

(** X8. A POST whose body is empty, or parses to a request without a
    [dataURL] string that starts with [data:image/], is answered with 400 and
    the hint at the expected data URL; no directory is made and no file
    written.  A body that does not parse, or parses to [null], is answered
    with 400 and [Invalid request body] after an error line. *)
Theorem handleUpload_rejects (body : string) (request : Json) (parseError : string)
        (tr : list ServerEffect) :
  (bodyJson body = inr request ->
   request <> JNull ->
   acceptedDataURL request = None ->
   run (handleUpload "POST" body) tr
   = (inr tt,
      (tr ++ [WriteHead 400 "application/json";
              End_ (StatusError "dataURL (data:image/*;base64,...) required")])%list))
  /\ (bodyJson body = inl parseError \/ bodyJson body = inr JNull ->
      run (handleUpload "POST" body) tr
      = (inr tt,
         (tr ++ [ConsoleError "[Upload Screenshot] Error:";
                 WriteHead 400 "application/json";
                 End_ (StatusError "Invalid request body")])%list)).
Proof.
  split.
  - intros Hbody Hrequest Hurl.
    rewrite (handleUpload_request body request tr Hbody Hrequest), Hurl.
    unfold run, respond, emit. cbn. repeat rewrite <- app_assoc. reflexivity.
  - unfold DevServer.bodyJson. intros Hbody.
    unfold run, DevServer.handleUpload, parse, destructure, respond, throw, emit.
    change (negb (String.eqb "POST" "POST")) with false. cbv iota.
    destruct (isEmpty body); [destruct Hbody; discriminate|].
    destruct Hbody as [-> | ->]; cbn; repeat rewrite <- app_assoc; reflexivity.
Qed.

Local Abbreviation savedEffects := (DevServer.savedEffects now OUTPUT_DIR outputDirExists).

(** X9. A POST with an accepted data URL whose [clientId], [source] and
    [component] can be rendered (no object with a property [toString] of its
    own among them), on a disk that takes the writes: the output directory is
    made if it is missing, the image is written to
    [OUTPUT_DIR/<timestamp>__<client>__<source>__<component>.<ext>], the JSON
    sidecar next to it exactly when the request has a truthy [note], and the
    answer is 200 with the file name. *)
Theorem handleUpload_saves (body : string) (request : Json) (baseName dataURL : string)
        (tr : list ServerEffect) :
  bodyJson body = inr request ->
  request <> JNull ->
  acceptedDataURL request = Some dataURL ->
  baseNameOf request = Some baseName ->
  (outputDirExists = false -> mkdirSync_throws = None) ->
  writeFileSync_throws (pathJoin (filenameOf baseName dataURL)) = None ->
  writeFileSync_throws (pathJoin (baseName ++ ".json")) = None ->
  run (handleUpload "POST" body) tr
  = (inr tt, (tr ++ savedEffects request baseName dataURL)%list).
Proof.
  intros Hbody Hrequest Hurl Hname Hmkdir Himage Hsidecar.
  rewrite (handleUpload_request body request tr Hbody Hrequest), Hurl.
  unfold DevServer.savedEffects, noteOf, run, DevServer.saveScreenshot, writeFileSync,
    rendered, respond, throw, emit.
  rewrite Hname.
  destruct outputDirExists; [|rewrite (Hmkdir eq_refl)];
    cbn; rewrite Himage;
    (destruct (property request "note") as [note|]; [destruct (truthy note)|]);
    cbn; rewrite ?Hsidecar; cbn; repeat rewrite <- app_assoc; reflexivity.
Qed.

(** X10. A POST with an accepted data URL, the output directory being there.
    When the file name cannot be made, because the rendering of [clientId],
    [source] or [component] throws, nothing is written and the answer is 400
    with [Invalid request body].  When the image cannot be written, the same.
    When the image was written and the sidecar cannot be, the answer is the
    same 400 and the image stays on disk. *)
Theorem handleUpload_write_failure (body : string) (request : Json)
        (baseName dataURL : string) (note : Json) (writeError : string)
        (tr : list ServerEffect) :
  bodyJson body = inr request ->
  request <> JNull ->
  acceptedDataURL request = Some dataURL ->
  outputDirExists = true ->
  (baseNameOf request = None ->
   run (handleUpload "POST" body) tr
   = (inr tt,
      (tr ++ [ConsoleError "[Upload Screenshot] Error:";
              WriteHead 400 "application/json";
              End_ (StatusError "Invalid request body")])%list))
  /\ (baseNameOf request = Some baseName ->
      writeFileSync_throws (pathJoin (filenameOf baseName dataURL)) = Some writeError ->
      run (handleUpload "POST" body) tr
      = (inr tt,
         (tr ++ [ConsoleError "[Upload Screenshot] Error:";
                 WriteHead 400 "application/json";
                 End_ (StatusError "Invalid request body")])%list))
  /\ (baseNameOf request = Some baseName ->
      writeFileSync_throws (pathJoin (filenameOf baseName dataURL)) = None ->
      noteOf request = Some note ->
      writeFileSync_throws (pathJoin (baseName ++ ".json")) = Some writeError ->
      run (handleUpload "POST" body) tr
      = (inr tt,
         (tr ++ [WriteFile (pathJoin (filenameOf baseName dataURL))
                           (ImageBytes (base64Of dataURL));
                 ConsoleError "[Upload Screenshot] Error:";
                 WriteHead 400 "application/json";
                 End_ (StatusError "Invalid request body")])%list)).
Proof.
  intros Hbody Hrequest Hurl Hdir.
  rewrite (handleUpload_request body request tr Hbody Hrequest), Hurl.
  unfold noteOf, run, DevServer.saveScreenshot, writeFileSync, rendered, respond, throw,
    emit.
  rewrite Hdir. split; [|split].
  - intros ->. cbn. repeat rewrite <- app_assoc. reflexivity.
  - intros -> Himage. cbn. rewrite Himage. cbn. repeat rewrite <- app_assoc. reflexivity.
  - intros -> Himage Hnote Hsidecar. cbn. rewrite Himage.
    destruct (property request "note") as [n|]; [|discriminate].
    destruct (truthy n); [|discriminate].
    cbn. rewrite Hsidecar. cbn. repeat rewrite <- app_assoc. reflexivity.
Qed.

Lemma timestampOf_safe : noSeparator now = true -> noSeparator timestampOf = true.
Proof.
  apply replaceAll_keeps. reflexivity.
Qed.

Lemma baseNameOf_safe (request : Json) (baseName : string) :
  noSeparator now = true ->
  baseNameOf request = Some baseName ->
  noSeparator baseName = true.
Proof.
  intros Hnow. unfold DevServer.baseNameOf, andThen.
  destruct (orDefault (property request "clientId") "UNKNOWN"); [|discriminate].
  destruct (orDefault (property request "source") "Unknown"); [|discriminate].
  destruct (orDefault (property request "component") "Unknown"); [|discriminate].
  intros [= <-]. unfold noSeparator.
  rewrite !forallChars_app.
  fold (noSeparator timestampOf). rewrite (timestampOf_safe Hnow).
  repeat match goal with
         | |- context [forallChars _ (sanitize ?s)] =>
             let H := fresh in
             pose proof (sanitize_noSeparator s) as H;
             unfold noSeparator in H; rewrite H; clear H
         end.
  reflexivity.
Qed.

(** X11. Whatever the request holds in [clientId], [source], [component] and
    [dataURL], every file the upload handler writes lies directly in
    [OUTPUT_DIR]: its path is [OUTPUT_DIR/<name>] with no [/] and no [\] in
    the name (the server's timestamp having none). *)
Theorem handleUpload_writes_in_output_dir (method body : string) (tr : list ServerEffect) :
  noSeparator now = true ->
  exists effects : list ServerEffect,
    run (handleUpload method body) tr = (inr tt, (tr ++ effects)%list)
    /\ forall (path : string) (content : FileContent),
         In (WriteFile path content) effects ->
         exists name : string,
           path = OUTPUT_DIR ++ "/" ++ name /\ noSeparator name = true.
Proof.
  intros Hnow.
  assert (Himage : forall request baseName dataURL,
             baseNameOf request = Some baseName ->
             noSeparator (filenameOf baseName dataURL) = true).
  { intros request baseName dataURL Hname. unfold DevServer.filenameOf, noSeparator.
    rewrite !forallChars_app.
    fold (noSeparator baseName). rewrite (baseNameOf_safe request baseName Hnow Hname).
    fold (noSeparator (extensionOf (mimeOf dataURL))).
    rewrite extensionOf_mimeOf_safe. reflexivity. }
  assert (Hsidecar : forall request baseName,
             baseNameOf request = Some baseName ->
             noSeparator (baseName ++ ".json") = true).
  { intros request baseName Hname. unfold noSeparator. rewrite forallChars_app.
    fold (noSeparator baseName). rewrite (baseNameOf_safe request baseName Hnow Hname).
    reflexivity. }
  upload_cases; repeat rewrite <- app_assoc; cbn;
    eexists; (split; [reflexivity|]);
    intros path content Hin; cbn in Hin;
    repeat (destruct Hin as [Hin|Hin];
            [first [ discriminate
                   | injection Hin as <- <-;
                     eexists; split;
                     [reflexivity
                     | solve [eapply Himage; eassumption | eapply Hsidecar; eassumption]] ]
            |]);
    contradiction.
Qed.

End UploadEndpoint.

(** ** The further theorems at concrete inputs *)

(** A screenshot whose client id cannot be rendered: the output directory,
    which was missing, is made, then the request is answered with 400 and no
    file is written. *)
Example handleUpload_unrenderable_clientId :
  DevServer.run
    (DevServer.handleUpload (fun _ => inr unrenderableShot) "2024-01-01T10:20:30.000Z"
       "/srv/debug_uploads" false None (fun _ => None) "POST" "{...}") []
  = (inr tt,
     [DevServer.MkdirRecursive "/srv/debug_uploads";
      DevServer.ConsoleError "[Upload Screenshot] Error:";
      DevServer.WriteHead 400 "application/json";
      DevServer.End_ (DevServer.StatusError "Invalid request body")]).
Proof. vm_compute. reflexivity. Qed.

Lemma handleUpload_rejects_witness :
  DevServer.run
    (DevServer.handleUpload parseShot "2024-01-01T10:20:30.000Z" "/srv/debug_uploads"
       true None (fun _ => None) "POST" "") []
  = (inr tt,
     [DevServer.WriteHead 400 "application/json";
      DevServer.End_
        (DevServer.StatusError "dataURL (data:image/*;base64,...) required")]).
Proof.
  exact (proj1 (handleUpload_rejects parseShot "2024-01-01T10:20:30.000Z"
                  "/srv/debug_uploads" true None (fun _ => None) ""
                  (DevServer.JObject []) "x" [])
               eq_refl ltac:(discriminate) eq_refl).
Defined.

Lemma handleUpload_saves_witness :
  DevServer.run
    (DevServer.handleUpload parseShot "2024-01-01T10:20:30.000Z" "/srv/debug_uploads"
       false None (fun _ => None) "POST" "{...}") []
  = (inr tt,
     [DevServer.MkdirRecursive "/srv/debug_uploads";
      DevServer.WriteFile ("/srv/debug_uploads/" ++ shotName ++ ".jpg")
        (DevServer.ImageBytes "/9j/4AAQ");
      DevServer.WriteFile ("/srv/debug_uploads/" ++ shotName ++ ".json")
        (DevServer.Sidecar (Some (DevServer.JString "client_1/../x"))
           (Some (DevServer.JString "qr-scanner-client"))
           (Some (DevServer.JString "DebugScreenshot")) (DevServer.JString "blurry")
           "image/jpeg" "/9j/4AAQ" "2024-01-01T10-20-30.000Z");
      DevServer.WriteHead 200 "application/json";
      DevServer.End_ (DevServer.StatusSaved (shotName ++ ".jpg") "/srv/debug_uploads")]).
Proof.
  rewrite (handleUpload_saves parseShot "2024-01-01T10:20:30.000Z" "/srv/debug_uploads"
             false None (fun _ => None) "{...}" shot shotName
             "data:image/jpeg;base64,/9j/4AAQ" []
             eq_refl ltac:(discriminate) eq_refl eq_refl (fun _ => eq_refl) eq_refl eq_refl).
  vm_compute. reflexivity.
Defined.

Lemma handleUpload_write_failure_witness :
  DevServer.run
    (DevServer.handleUpload parseShot "2024-01-01T10:20:30.000Z" "/srv/debug_uploads"
       true None onlyImage "POST" "{...}") []
  = (inr tt,
     [DevServer.WriteFile ("/srv/debug_uploads/" ++ shotName ++ ".jpg")
        (DevServer.ImageBytes "/9j/4AAQ");
      DevServer.ConsoleError "[Upload Screenshot] Error:";
      DevServer.WriteHead 400 "application/json";
      DevServer.End_ (DevServer.StatusError "Invalid request body")]).
Proof.
  assert (Himage : onlyImage ("/srv/debug_uploads/" ++ shotName ++ ".jpg") = None)
    by (vm_compute; reflexivity).
  assert (Hsidecar : onlyImage ("/srv/debug_uploads/" ++ shotName ++ ".json")
                     = Some "ENOSPC")
    by (vm_compute; reflexivity).
  assert (Hname : DevServer.baseNameOf "2024-01-01T10:20:30.000Z" shot = Some shotName)
    by (vm_compute; reflexivity).
  rewrite (proj2 (proj2 (handleUpload_write_failure parseShot "2024-01-01T10:20:30.000Z"
                           "/srv/debug_uploads" true None onlyImage "{...}" shot shotName
                           "data:image/jpeg;base64,/9j/4AAQ" (DevServer.JString "blurry")
                           "ENOSPC" [] eq_refl ltac:(discriminate) eq_refl eq_refl))
                 Hname Himage eq_refl Hsidecar).
  vm_compute. reflexivity.
Defined.

Lemma handleUpload_writes_in_output_dir_witness :
  exists effects : list DevServer.ServerEffect,
    DevServer.run
      (DevServer.handleUpload parseShot "2024-01-01T10:20:30.000Z" "/srv/debug_uploads"
         true None (fun _ => None) "POST" "{...}") []
    = (inr tt, ([] ++ effects)%list)
    /\ forall (path : string) (content : DevServer.FileContent),
         In (DevServer.WriteFile path content) effects ->
         exists name : string,
           path = "/srv/debug_uploads" ++ "/" ++ name /\ DevServer.noSeparator name = true.
Proof.
  exact (handleUpload_writes_in_output_dir parseShot "2024-01-01T10:20:30.000Z"
           "/srv/debug_uploads" true None (fun _ => None) "POST" "{...}" [] eq_refl).
Defined.

Lemma unmounted_list_is_discarded_witness :
  cancelled (ctl unmounted) = true
  /\ runState (step noThrow true (ListResolved [cam1; cam2])) unmounted = (false, unmounted).
Proof.
  assert (H : cancelled (ctl unmounted) = true) by (vm_compute; reflexivity).
  split; [exact H|].
  exact (proj1 (unmounted_list_is_discarded noThrow true unmounted [cam1; cam2] "x" H)).
Defined.

Lemma first_list_starts_first_device_witness :
  evalState (step noThrow true (ListResolved [cam1; cam2])) loading = true
  /\ last (trace (execState (step noThrow true (ListResolved [cam1; cam2])) loading))
          ListDevices
     = ServiceStart 0.
Proof.
  assert (Hloading : cancelled (ctl loading) = false /\ videoRef (ctl loading) = true
                     /\ isScanning (ctl loading) = false
                     /\ hasAutoStartedRef (ctl loading) = false)
    by (vm_compute; repeat split; reflexivity).
  destruct Hloading as (Hmounted & Hvideo & Hscan & Hauto).
  destruct (first_list_starts_first_device noThrow true loading cam1 [cam2]
              Hmounted Hvideo Hscan Hauto eq_refl) as (Hfired & _ & _ & Hlast).
  split; [exact Hfired | exact Hlast].
Defined.

Lemma empty_list_starts_nothing_witness :
  evalState (step noThrow true (ListResolved [])) loading = false
  /\ nextService (execState (step noThrow true (ListRejected "NotAllowedError")) loading) = 0.
Proof.
  assert (Hmounted : cancelled (ctl loading) = false) by (vm_compute; reflexivity).
  destruct (empty_list_starts_nothing noThrow true loading "NotAllowedError" Hmounted)
    as ((Hnone & _) & (_ & _ & Hnext)).
  split; [exact Hnone | exact Hnext].
Defined.

Lemma toggle_twice_releases_witness :
  openSessions
    (trace (execState (handleToggleScan noThrow)
              (execState (handleToggleScan noThrow)
                 (run noThrow true
                    [Mount; PrimeResolved; ListResolved [cam1; cam2]; StopScan] initial))))
  = [].
Proof.
  assert (Hvideo : videoRef (ctl (run noThrow true
                      [Mount; PrimeResolved; ListResolved [cam1; cam2]; StopScan] initial))
                   = true) by (vm_compute; reflexivity).
  assert (Hscan : isScanning (ctl (run noThrow true
                     [Mount; PrimeResolved; ListResolved [cam1; cam2]; StopScan] initial))
                  = false) by (vm_compute; reflexivity).
  exact (proj2 (proj2 (proj2 (toggle_twice_releases noThrow true
                                [Mount; PrimeResolved; ListResolved [cam1; cam2]; StopScan]
                                Hvideo Hscan eq_refl)))).
Defined.
